(** * lambda_decorators: a shallow embedding and its verification

    The Python module [lambda_decorators.py] defines six decorators for
    AWS Lambda handlers.  Handlers are Python functions of two arguments
    [(event, context)]; events and responses are mutable dictionaries that
    the decorators update in place.  The embedding therefore keeps an
    explicit object store: dictionaries, lists and sets live in a heap and
    are passed around by reference, and every Python statement of the
    source becomes a step of a state-and-exception monad over that store. *)

From stdpp Require Import gmap strings list fin_maps.

Set Default Proof Using "Type".
Set Warnings "-register-all,-clear-no-such-hyp".
Open Scope string_scope.

(** ** Values and objects *)

Definition loc := positive.

(** Immediate values and references to heap objects.  A float is carried
    as its IEEE-754 bit pattern; no arithmetic on floats is needed. *)
Inductive value :=
| VNone
| VBool (b : bool)
| VInt (z : Z)
| VFloat (bits : Z)
| VStr (s : string)
| VRef (l : loc).

#[global] Instance value_eq_dec : EqDecision value.
Proof. solve_decision. Defined.

(** Heap objects.  A [dict] keeps its keys in insertion order (the order
    [json.dumps] writes them in); keys are strings, as in the events and
    responses the handlers exchange. *)
Inductive obj :=
| ODict (d : list (string * value))
| OList (vs : list value)
| OSet (xs : list value).

(** *** Insertion-ordered association lists *)

Fixpoint assoc_get {A} (k : string) (d : list (string * A)) : option A :=
  match d with
  | [] => None
  | (k', v) :: d' => if decide (k = k') then Some v else assoc_get k d'
  end.

(** [d[k] = v]: replace the value in place when the key is bound, append
    the binding otherwise. *)
Fixpoint assoc_set {A} (k : string) (v : A) (d : list (string * A))
  : list (string * A) :=
  match d with
  | [] => [(k, v)]
  | (k', v') :: d' =>
      if decide (k = k') then (k', v) :: d' else (k', v') :: assoc_set k v d'
  end.

(** The dictionary built from a sequence of bindings, left to right. *)
Definition assoc_of_list {A} (kvs : list (string * A)) : list (string * A) :=
  foldl (fun acc kv => assoc_set kv.1 kv.2 acc) [] kvs.

(** ** Exceptions and outcomes *)

Inductive exn_class :=
| TypeError
| AttributeError
| KeyError
| ValueError
| UnboundLocalError
| RuntimeError
| OtherException (name : string)
| NonException (name : string).

(** [except Exception] catches every class but those deriving directly
    from [BaseException] ([KeyboardInterrupt], [SystemExit], ...). *)
Definition is_Exception (c : exn_class) : bool :=
  match c with
  | NonException _ => false
  | _ => true
  end.

Record exn := Exn { exn_cls : exn_class; exn_msg : string }.

(** [str(exc)] *)
Definition str_exc (e : exn) : string := exn_msg e.

Inductive outcome (A : Type) :=
| Return (a : A)
| Raise (e : exn).
Arguments Return {A} a.
Arguments Raise {A} e.

(** ** The world and the monad of Python statements *)

(** [heap] holds the objects reachable from events and responses;
    [cells] holds the sets captured by closures of the module (one per
    application of [no_retry_on_failure]), which no handler can reach;
    [ncalls] counts the entries into user handlers. *)
Record world := World {
  heap : gmap loc obj;
  cells : gmap loc (gset string);
  ncalls : nat
}.

Definition set_heap (h : gmap loc obj) (w : world) : world :=
  {| heap := h; cells := cells w; ncalls := ncalls w |}.

Definition set_cells (c : gmap loc (gset string)) (w : world) : world :=
  {| heap := heap w; cells := c; ncalls := ncalls w |}.

Definition tick (w : world) : world :=
  {| heap := heap w; cells := cells w; ncalls := S (ncalls w) |}.

Definition M (A : Type) : Type := world -> outcome A * world.

Definition ret {A} (a : A) : M A := fun w => (Return a, w).

Definition raise {A} (e : exn) : M A := fun w => (Raise e, w).

Definition bind {A B} (m : M A) (k : A -> M B) : M B :=
  fun w =>
    match m w with
    | (Return a, w') => k a w'
    | (Raise e, w') => (Raise e, w')
    end.

Notation "x <- m ;; k" := (bind m (fun x => k))
  (at level 100, m at next level, right associativity).
Notation "m ;;; k" := (bind m (fun _ => k))
  (at level 100, right associativity).

(** [try: m except <filter> as exc: h exc]; with [filter] constantly
    [true] it is the bare [except:]. *)
Definition try_except {A} (m : M A) (filter : exn -> bool) (h : exn -> M A)
  : M A :=
  fun w =>
    match m w with
    | (Return a, w') => (Return a, w')
    | (Raise e, w') => if filter e then h e w' else (Raise e, w')
    end.

Definition except_Exception (e : exn) : bool := is_Exception (exn_cls e).
Definition except_all (e : exn) : bool := true.

(** ** Object operations *)

Definition type_name (h : gmap loc obj) (v : value) : string :=
  match v with
  | VNone => "NoneType"
  | VBool _ => "bool"
  | VInt _ => "int"
  | VFloat _ => "float"
  | VStr _ => "str"
  | VRef l =>
      match h !! l with
      | Some (ODict _) => "dict"
      | Some (OList _) => "list"
      | Some (OSet _) => "set"
      | None => "object"
      end
  end.

Definition alloc (o : obj) : M value :=
  fun w =>
    let l := fresh (dom (heap w)) in
    (Return (VRef l), set_heap (<[l := o]> (heap w)) w).

(** A dict display [{k1: v1, ..., kn: vn}]. *)
Definition new_dict (kvs : list (string * value)) : M value :=
  alloc (ODict (assoc_of_list kvs)).

Definition no_attribute {A} (v : value) (attr : string) : M A :=
  fun w =>
    (Raise (Exn AttributeError
              ("'" +:+ type_name (heap w) v +:+ "' object has no attribute '"
                   +:+ attr +:+ "'")), w).

Definition as_dict (h : gmap loc obj) (v : value)
  : option (loc * list (string * value)) :=
  match v with
  | VRef l =>
      match h !! l with
      | Some (ODict d) => Some (l, d)
      | _ => None
      end
  | _ => None
  end.

(** [o.get(k)] *)
Definition py_get (o : value) (k : string) : M value :=
  fun w =>
    match as_dict (heap w) o with
    | Some (_, d) => (Return (default VNone (assoc_get k d)), w)
    | None => no_attribute o "get" w
    end.

(** [o[k]] with a string subscript, as a function of the heap *)
Definition getitem (h : gmap loc obj) (o : value) (k : string)
  : outcome value :=
  match as_dict h o with
  | Some (_, d) =>
      match assoc_get k d with
      | Some v => Return v
      | None => Raise (Exn KeyError ("'" +:+ k +:+ "'"))
      end
  | None =>
      Raise (Exn TypeError
               (match type_name h o with
                | "list" => "list indices must be integers or slices, not str"
                | "str" => "string indices must be integers, not 'str'"
                | t => "'" +:+ t +:+ "' object is not subscriptable"
                end))
  end.

Definition py_getitem (o : value) (k : string) : M value :=
  fun w => (getitem (heap w) o k, w).

(** [o[k] = v] with a string subscript *)
Definition py_setitem (o : value) (k : string) (v : value) : M unit :=
  fun w =>
    match as_dict (heap w) o with
    | Some (l, d) =>
        (Return tt, set_heap (<[l := ODict (assoc_set k v d)]> (heap w)) w)
    | None =>
        (Raise (Exn TypeError
                  (match type_name (heap w) o with
                   | "list" =>
                       "list indices must be integers or slices, not str"
                   | t => "'" +:+ t +:+ "' object does not support item assignment"
                   end)), w)
    end.

(** [o.setdefault(k, dflt)] once [dflt] has been evaluated *)
Definition py_setdefault (o : value) (k : string) (dflt : value) : M value :=
  fun w =>
    match as_dict (heap w) o with
    | Some (l, d) =>
        match assoc_get k d with
        | Some v => (Return v, w)
        | None =>
            (Return dflt,
             set_heap (<[l := ODict (assoc_set k dflt d)]> (heap w)) w)
        end
    | None => no_attribute o "setdefault" w
    end.

(** [o.setdefault]: the attribute is looked up before the arguments of
    the call are evaluated. *)
Definition py_getattr_setdefault (o : value) : M unit :=
  fun w =>
    match as_dict (heap w) o with
    | Some _ => (Return tt, w)
    | None => no_attribute o "setdefault" w
    end.

(** [k in o] for a string [k] *)
Definition py_contains (k : string) (o : value) : M bool :=
  fun w =>
    match o with
    | VStr s => (Return (bool_decide (is_Some (String.index 0 k s))), w)
    | VRef l =>
        match heap w !! l with
        | Some (ODict d) => (Return (bool_decide (is_Some (assoc_get k d))), w)
        | Some (OList vs) => (Return (bool_decide (VStr k ∈ vs)), w)
        | Some (OSet xs) => (Return (bool_decide (VStr k ∈ xs)), w)
        | None =>
            (Raise (Exn TypeError "argument of type 'object' is not iterable"),
             w)
        end
    | _ =>
        (Raise (Exn TypeError
                  ("argument of type '" +:+ type_name (heap w) o
                       +:+ "' is not iterable")), w)
    end.

(** Reading a local variable that may not have been assigned yet. *)
Definition load_local {A} (name : string) (x : option A) : M A :=
  match x with
  | Some a => ret a
  | None =>
      raise (Exn UnboundLocalError
               ("cannot access local variable '" +:+ name
                    +:+ "' where it is not associated with a value"))
  end.

(** ** Function objects *)

(** The attributes [functools.wraps] copies from the wrapped function to
    its wrapper: [__module__], [__name__], [__qualname__], [__doc__]. *)
Record metadata := Meta {
  md_module : string;
  md_name : string;
  md_qualname : string;
  md_doc : option string
}.

(** The invocation context handed over by the Lambda runtime. *)
Record context := Context {
  aws_request_id : string;
  function_name : string
}.

(** A function of the two positional arguments [(event, context)]. *)
Record func := Func {
  fn_meta : metadata;
  fn_call : value -> context -> M value
}.

(** What a decorator application evaluates to: a function, or [None]
    when the decorator body falls off its end. *)
Inductive pyobj :=
| PNone
| PFunc (f : func).

(** [f(event, context)] for an arbitrary object [f]. *)
Definition py_call (f : pyobj) (event : value) (ctx : context) : M value :=
  match f with
  | PFunc g => fn_call g event ctx
  | PNone => raise (Exn TypeError "'NoneType' object is not callable")
  end.

(** [def name(event, context): body] inside this module. *)
Definition def_ (name qualname : string)
    (body : value -> context -> M value) : func :=
  {| fn_meta := {| md_module := "lambda_decorators"; md_name := name;
                   md_qualname := qualname; md_doc := None |};
     fn_call := body |}.

(** [@wraps(wrapped)] applied to [wrapper]. *)
Definition wraps (wrapped : metadata) (wrapper : func) : func :=
  {| fn_meta := {| md_module := md_module wrapped;
                   md_name := md_name wrapped;
                   md_qualname := md_qualname wrapped;
                   md_doc := md_doc wrapped |};
     fn_call := fn_call wrapper |}.

(** A handler written by the user of the module.  It reads and updates
    the objects of the heap; entering it bumps the call counter. *)
Definition user (md : metadata)
    (f : value -> context -> gmap loc obj -> outcome value * gmap loc obj)
  : func :=
  {| fn_meta := md;
     fn_call := fun event ctx w =>
       let '(r, h') := f event ctx (heap w) in (r, set_heap h' (tick w)) |}.

(** ** Coroutines *)

(** A suspendable computation: finished with a value or an exception,
    or suspended at an [await] and resumed by the event loop. *)
Inductive coro :=
| CoReturn (v : value)
| CoRaise (e : exn)
| CoAwait (resume : world -> coro * world).

(** A coroutine function, with the parameters its [async def] declares. *)
Inductive async_code :=
| AsyncDef0 (body : coro)
| AsyncDef2 (body : value -> context -> coro).

Record async_func := AsyncFunc {
  af_meta : metadata;
  af_code : async_code
}.

Inductive event_loop := EventLoop.

(** [asyncio.get_event_loop()] *)
Definition get_event_loop : M event_loop := ret EventLoop.

(** [loop.run_until_complete(c)] *)
Fixpoint run_until_complete (loop : event_loop) (c : coro) : M value :=
  match c with
  | CoReturn v => ret v
  | CoRaise e => raise e
  | CoAwait resume =>
      fun w => let '(c', w') := resume w in run_until_complete loop c' w'
  end.

(** [handler()]: a call without arguments yields the coroutine object
    when the function declares no parameter and fails otherwise. *)
Definition call_no_args (handler : async_func) : M coro :=
  match af_code handler with
  | AsyncDef0 body => ret body
  | AsyncDef2 _ =>
      raise (Exn TypeError
               (md_name (af_meta handler) +:+
                "() missing 2 required positional arguments: 'event' and 'context'"))
  end.

(** ** The [json] module *)

(** A parsed JSON document. *)
Inductive json :=
| JNull
| JBool (b : bool)
| JInt (z : Z)
| JFloat (bits : Z)
| JStr (s : string)
| JArr (js : list json)
| JObj (kvs : list (string * json)).

(** [[f(x) for x in xs]], left to right. *)
Definition mapM {A B} (f : A -> M B) : list A -> M (list B) :=
  fix go (xs : list A) : M (list B) :=
    match xs with
    | [] => ret []
    | x :: xs' => y <- f x ;; ys <- go xs' ;; ret (y :: ys)
    end.

(** The Python objects [json.loads] builds for a parsed document. *)
Fixpoint alloc_json (j : json) : M value :=
  match j with
  | JNull => ret VNone
  | JBool b => ret (VBool b)
  | JInt z => ret (VInt z)
  | JFloat bits => ret (VFloat bits)
  | JStr s => ret (VStr s)
  | JArr js =>
      vs <- mapM alloc_json js ;;
      alloc (OList vs)
  | JObj kvs =>
      d <- mapM (fun kj => let '(k, j) := kj in
                           v <- alloc_json j ;; ret (k, v)) kvs ;;
      alloc (ODict (assoc_of_list d))
  end.

(** ** The decorators *)

Section Decorators.

(** The grammar and the printer of the standard [json] module are not
    part of this repository; they are parameters of the development.
    [json_loads s] is the parsed document or the exception raised;
    [json_dumps h v] is the text of [v] in the heap [h] or the
    exception raised. *)
Variable json_loads : string -> outcome json.
Variable json_dumps : gmap loc obj -> value -> outcome string.

(** [json.loads(s)] *)
Definition json_loads_call (s : value) : M value :=
  match s with
  | VStr text =>
      match json_loads text with
      | Return j => alloc_json j
      | Raise e => raise e
      end
  | _ =>
      fun w =>
        (Raise (Exn TypeError
                  ("the JSON object must be str, bytes or bytearray, not "
                     +:+ type_name (heap w) s)), w)
  end.

(** [json.dumps(v)] *)
Definition json_dumps_call (v : value) : M string :=
  fun w => (json_dumps (heap w) v, w).

(** [json.dumps[k]]: the function object is subscripted, not called. *)
Definition json_dumps_subscript (k : string) : M value :=
  raise (Exn TypeError "'function' object is not subscriptable").

(** *** async_handler *)

Definition async_handler (handler : async_func) : func :=
  wraps (af_meta handler)
    (def_ "wrapper" "async_handler.<locals>.wrapper"
       (fun event context =>
          loop <- get_event_loop ;;
          c <- call_no_args handler ;;
          run_until_complete loop c)).

(** *** cors *)

Definition ACAO : string := "Access-Control-Allow-Origin".

(** The branch taken when the argument is a string. *)
Definition wrapper_wrapper (handler_or_origin : string) (handler : func)
  : func :=
  wraps (fn_meta handler)
    (def_ "wrapper" "cors.<locals>.wrapper_wrapper.<locals>.wrapper"
       (fun event context =>
          response <- fn_call handler event context ;;
          py_getattr_setdefault response ;;;
          empty <- new_dict [] ;;
          headers <- py_setdefault response "headers" empty ;;
          py_setitem headers ACAO (VStr handler_or_origin) ;;;
          ret response)).

Inductive cors_arg :=
| Origin (origin : string)
| Handler (handler : func).

Inductive cors_result :=
| Decorator (d : func -> func)
| Decorated (f : func).

(** [cors(handler_or_origin)]; the second branch is
    [cors('*')(handler_or_origin)] with the inner call unfolded. *)
Definition cors (handler_or_origin : cors_arg) : cors_result :=
  match handler_or_origin with
  | Origin origin => Decorator (wrapper_wrapper origin)
  | Handler handler => Decorated (wrapper_wrapper "*" handler)
  end.

(** [c(handler)] for the result [c] of [cors(origin)]: defined when [c]
    is the decorator [wrapper_wrapper] (a wrapper wants two arguments). *)
Definition apply_cors (c : cors_result) (handler : func) : option func :=
  match c with
  | Decorator d => Some (d handler)
  | Decorated _ => None
  end.

(** *** dump_json_body *)

Definition dump_json_body_wrapper (handler : func) : func :=
  wraps (fn_meta handler)
    (def_ "wrapper" "dump_json_body.<locals>.wrapper"
       (fun event context =>
          response <- fn_call handler event context ;;
          has_body <- py_contains "body" response ;;
          early <- (if has_body : bool then
                      try_except
                        (v <- json_dumps_subscript "body" ;;
                         py_setitem response "body" v ;;;
                         ret None)
                        except_Exception
                        (fun exc =>
                           r <- new_dict [("statusCode", VInt 500);
                                          ("body", VStr (str_exc exc))] ;;
                           ret (Some r))
                    else ret None) ;;
          match early with
          | Some r => ret r
          | None => ret response
          end)).

(** The decorator defines [wrapper] and ends without returning it. *)
Definition dump_json_body (handler : func) : pyobj :=
  let wrapper := dump_json_body_wrapper handler in
  PNone.

(** *** json_http_resp *)

Definition json_http_resp (handler : func) : func :=
  wraps (fn_meta handler)
    (def_ "wrapper" "json_http_resp.<locals>.wrapper"
       (fun event context =>
          response <- fn_call handler event context ;;
          r <- try_except
                 (body <- json_dumps_call response ;; ret (inl body))
                 except_Exception
                 (fun exc =>
                    (* the key is the local [body], not the string 'body';
                       its assignment in the [try] block did not happen *)
                    key <- load_local "body" (@None string) ;;
                    r <- new_dict [("statusCode", VInt 500);
                                   (key, VStr (str_exc exc))] ;;
                    ret (inr r)) ;;
          match r with
          | inl body =>
              new_dict [("statusCode", VInt 200); ("body", VStr body)]
          | inr r => ret r
          end)).

(** *** load_json_body *)

Definition is_str (v : value) : bool :=
  match v with
  | VStr _ => true
  | _ => false
  end.

Definition load_json_body (handler : func) : func :=
  wraps (fn_meta handler)
    (def_ "wrapper" "load_json_body.<locals>.wrapper"
       (fun event context =>
          b <- py_get event "body" ;;
          early <- (if is_str b then
                      try_except
                        (s <- py_getitem event "body" ;;
                         v <- json_loads_call s ;;
                         py_setitem event "body" v ;;;
                         ret None)
                        except_all
                        (fun _ =>
                           r <- new_dict [("statusCode", VInt 400);
                                          ("body", VStr "BAD REQUEST")] ;;
                           ret (Some r))
                    else ret None) ;;
          match early with
          | Some r => ret r
          | None => fn_call handler event context
          end)).

(** *** no_retry_on_failure *)

(** [seen_request_ids = set()]: a fresh cell for the closure. *)
Definition new_cell : M loc :=
  fun w =>
    let c := fresh (dom (cells w)) in
    (Return c, set_cells (<[c := ∅]> (cells w)) w).

Definition seen (c : loc) (w : world) : gset string :=
  default ∅ (cells w !! c).

(** [x in seen_request_ids] *)
Definition cell_contains (c : loc) (x : string) : M bool :=
  fun w => (Return (bool_decide (x ∈ seen c w)), w).

(** [seen_request_ids.add(x)] *)
Definition cell_add (c : loc) (x : string) : M unit :=
  fun w => (Return tt, set_cells (<[c := {[x]} ∪ seen c w]> (cells w)) w).

Definition retry_message (request_id : string) : string :=
  "Retry attempt on request id " +:+ request_id +:+ " detected.".

Definition no_retry_wrapper (seen_request_ids : loc) (handler : func)
  : func :=
  wraps (fn_meta handler)
    (def_ "wrapper" "no_retry_on_failure.<locals>.wrapper"
       (fun event context =>
          dup <- cell_contains seen_request_ids (aws_request_id context) ;;
          if dup : bool then
            raise (Exn RuntimeError
                     (retry_message (aws_request_id context)))
          else
            cell_add seen_request_ids (aws_request_id context) ;;;
            fn_call handler event context)).

Definition no_retry_on_failure (handler : func) : M func :=
  seen_request_ids <- new_cell ;;
  ret (no_retry_wrapper seen_request_ids handler).

End Decorators.

(** ** Notions used by the statements *)

(** A handler response in the sense of the data model: a dictionary
    whose [headers] entry, when present, is a dictionary too. *)
Definition is_response (h : gmap loc obj) (r : value) : bool :=
  match as_dict h r with
  | Some (_, d) =>
      match assoc_get "headers" d with
      | Some hs => bool_decide (is_Some (as_dict h hs))
      | None => true
      end
  | None => false
  end.

(** [denotes h v j]: in the heap [h] the value [v] is the Python object
    of the JSON document [j] (a repeated key keeps its first position
    and its last value, as in a [dict]). *)
Inductive denotes (h : gmap loc obj) : value -> json -> Prop :=
| den_null : denotes h VNone JNull
| den_bool b : denotes h (VBool b) (JBool b)
| den_int z : denotes h (VInt z) (JInt z)
| den_float bits : denotes h (VFloat bits) (JFloat bits)
| den_str s : denotes h (VStr s) (JStr s)
| den_arr l vs js :
    h !! l = Some (OList vs) ->
    Forall2 (denotes h) vs js ->
    denotes h (VRef l) (JArr js)
| den_obj l d kvs :
    h !! l = Some (ODict d) ->
    Forall2 (fun kv kj => kv.1 = kj.1 /\ denotes h kv.2 kj.2)
            d (assoc_of_list kvs) ->
    denotes h (VRef l) (JObj kvs).

(** [h2] has every object that was allocated between [h] and [h']. *)
Definition keeps_new (h h' h2 : gmap loc obj) : Prop :=
  forall l o, h !! l = None -> h' !! l = Some o -> h2 !! l = Some o.

(** [f a] always returns, only adds objects to the heap, and its result
    is related to [a] by [R] in every heap that keeps the new objects. *)
Definition allocates {A B} (R : gmap loc obj -> B -> A -> Prop)
    (f : A -> M B) (a : A) : Prop :=
  forall w, exists b w',
    f a w = (Return b, w')
    /\ heap w ⊆ heap w'
    /\ w' = set_heap (heap w') w
    /\ forall h2, keeps_new (heap w) (heap w') h2 -> R h2 b a.

(** The world after a sequence of invocations of [g], whatever each of
    them returns or raises. *)
Fixpoint invoke_all (g : func) (invs : list (value * context)) (w : world)
  : world :=
  match invs with
  | [] => w
  | (event, ctx) :: rest => invoke_all g rest (fn_call g event ctx w).2
  end.

Definition request_ids (invs : list (value * context)) : gset string :=
  list_to_set (map (fun ec => aws_request_id ec.2) invs).

(** ** Sample documents and handlers

    A stand-in for the [json] module on the few documents the examples
    below use, and the handlers of the docstrings. *)

Definition dq : string := String (Ascii.ascii_of_nat 34) EmptyString.

Definition quoted (s : string) : string := dq +:+ s +:+ dq.

Fixpoint join (sep : string) (xs : list string) : string :=
  match xs with
  | [] => EmptyString
  | [x] => x
  | x :: xs' => x +:+ sep +:+ join sep xs'
  end.

Fixpoint sequence {A} (xs : list (outcome A)) : outcome (list A) :=
  match xs with
  | [] => Return []
  | Raise e :: _ => Raise e
  | Return a :: xs' =>
      match sequence xs' with
      | Return l => Return (a :: l)
      | Raise e => Raise e
      end
  end.

Definition digit (n : nat) : string :=
  String (Ascii.ascii_of_nat (48 + n)) EmptyString.

(** Decimal numerals of the small integers of the examples. *)
Definition numeral (z : Z) : outcome string :=
  if decide (0 <= z < 10)%Z then Return (digit (Z.to_nat z))
  else Raise (Exn (OtherException "NotImplementedError") "numeral").

Fixpoint dumps_sample (fuel : nat) (h : gmap loc obj) (v : value)
  : outcome string :=
  match v with
  | VNone => Return "null"
  | VBool true => Return "true"
  | VBool false => Return "false"
  | VInt z => numeral z
  | VFloat _ => Raise (Exn (OtherException "NotImplementedError") "float")
  | VStr s => Return (quoted s)
  | VRef l =>
      match fuel with
      | O => Raise (Exn ValueError "Circular reference detected")
      | S fuel' =>
          match h !! l with
          | Some (ODict d) =>
              match sequence
                      (map (fun kv =>
                              match dumps_sample fuel' h kv.2 with
                              | Return s => Return (quoted kv.1 +:+ ": " +:+ s)
                              | Raise e => Raise e
                              end) d) with
              | Return items => Return ("{" +:+ join ", " items +:+ "}")
              | Raise e => Raise e
              end
          | Some (OList vs) =>
              match sequence (map (dumps_sample fuel' h) vs) with
              | Return items => Return ("[" +:+ join ", " items +:+ "]")
              | Raise e => Raise e
              end
          | Some (OSet _) =>
              Raise (Exn TypeError "Object of type set is not JSON serializable")
          | None =>
              Raise (Exn TypeError
                       "Object of type object is not JSON serializable")
          end
      end
  end.

Definition json_dumps_sample (h : gmap loc obj) (v : value) : outcome string :=
  dumps_sample (S (size h)) h v.

Definition doc_name : string := "{" +:+ quoted "name" +:+ ": 7}".

Definition json_loads_sample (s : string) : outcome json :=
  if decide (s = "null") then Return JNull
  else if decide (s = "[1, 2]") then Return (JArr [JInt 1; JInt 2])
  else if decide (s = doc_name) then Return (JObj [("name", JInt 7)])
  else Raise (Exn (OtherException "JSONDecodeError")
                "Expecting value: line 1 column 1 (char 0)").

Definition w_init : world := {| heap := ∅; cells := ∅; ncalls := 0 |}.

Definition ctx1 : context :=
  {| aws_request_id := "req-1"; function_name := "hello" |}.

Definition md_hello : metadata :=
  {| md_module := "handler"; md_name := "hello"; md_qualname := "hello";
     md_doc := Some "Say hello." |}.

(** [return o], for a freshly built object [o] *)
Definition return_new (o : obj) (_ : value) (_ : context) (h : gmap loc obj)
  : outcome value * gmap loc obj :=
  let l := fresh (dom h) in (Return (VRef l), <[l := o]> h).

Definition returning (o : obj) : func := user md_hello (return_new o).

(** [def hello(event, context): return {'hello': 'world'}] *)
Definition hello : func := returning (ODict [("hello", VStr "world")]).

(** [def hello(event, context): return {1}]: a set is not serializable *)
Definition hello_set : func := returning (OSet [VInt 1]).

(** [def handler(event, context):
        return {'statusCode': 200, 'body': {'hello': 'world'}}] *)
Definition return_status_body (_ : value) (_ : context) (h : gmap loc obj)
  : outcome value * gmap loc obj :=
  let b := fresh (dom h) in
  let h1 := <[b := ODict [("hello", VStr "world")]]> h in
  let r := fresh (dom h1) in
  (Return (VRef r), <[r := ODict [("statusCode", VInt 200); ("body", VRef b)]]> h1).

Definition hello_status_body : func := user md_hello return_status_body.

(** [lambda e, c: e['body']] *)
Definition get_body : func :=
  user md_hello (fun event _ h => (getitem h event "body", h)).

(** [async def hello(event, context): return event] *)
Definition hello_async : async_func :=
  {| af_meta := md_hello; af_code := AsyncDef2 (fun event _ => CoReturn event) |}.

(** An event [{'body': s}] at location 1. *)
Definition w_event (body : value) : world :=
  {| heap := {[ 1%positive := ODict [("body", body)] ]}; cells := ∅;
     ncalls := 0 |}.

(** ** Further notions and samples *)

#[global] Instance obj_eq_dec : EqDecision obj.
Proof. solve_decision. Defined.

(** The decorators of the module that return a wrapper, as functions
    from handlers to handlers. *)
Inductive module_decorator
    (json_loads : string -> outcome json)
    (json_dumps : gmap loc obj -> value -> outcome string)
  : (func -> func) -> Prop :=
| dec_cors origin : module_decorator json_loads json_dumps (wrapper_wrapper origin)
| dec_json_http_resp :
    module_decorator json_loads json_dumps (json_http_resp json_dumps)
| dec_load_json_body :
    module_decorator json_loads json_dumps (load_json_body json_loads)
| dec_no_retry cell :
    module_decorator json_loads json_dumps (no_retry_wrapper cell).

(** [@d1 @d2 ... @dn def handler]: the decorators are applied from the
    innermost [dn] to the outermost [d1]. *)
Definition stack (ds : list (func -> func)) (handler : func) : func :=
  foldr (fun d g => d g) handler ds.

(** A value that is there and is no dictionary: an immediate value or a
    reference to a list or a set. *)
Definition is_non_dict (h : gmap loc obj) (v : value) : bool :=
  match v with
  | VRef l =>
      match h !! l with
      | Some (ODict _) => false
      | Some _ => true
      | None => false
      end
  | _ => true
  end.

(** [enters n m]: running [m] enters user handlers exactly [n] times,
    whether it returns or raises. *)
Definition enters {A} (n : nat) (m : M A) : Prop :=
  forall w, ncalls (m w).2 = ncalls w + n.

(** [enters_at_most_once m]: running [m] enters user handlers once or
    not at all. *)
Definition enters_at_most_once {A} (m : M A) : Prop :=
  forall w, ncalls (m w).2 = ncalls w \/ ncalls (m w).2 = S (ncalls w).

(** The JSON text of [{'statusCode': 400, 'body': 'BAD REQUEST'}]. *)
Definition text_400 : string :=
  "{" +:+ quoted "statusCode" +:+ ": 400, " +:+ quoted "body" +:+ ": "
      +:+ quoted "BAD REQUEST" +:+ "}".

(** The stand-in for [json.dumps], extended to the 400 response. *)
Definition json_dumps_sample_400 (h : gmap loc obj) (v : value)
  : outcome string :=
  match v with
  | VRef l =>
      if decide (h !! l = Some (ODict [("statusCode", VInt 400);
                                       ("body", VStr "BAD REQUEST")]))
      then Return text_400
      else json_dumps_sample h v
  | _ => json_dumps_sample h v
  end.

(** [def failing(event, context): raise ValueError('boom')] *)
Definition raise_boom (_ : value) (_ : context) (h : gmap loc obj)
  : outcome value * gmap loc obj :=
  (Raise (Exn ValueError "boom"), h).

Definition failing : func := user md_hello raise_boom.

(** [def nothing(event, context): return None] *)
Definition return_none (_ : value) (_ : context) (h : gmap loc obj)
  : outcome value * gmap loc obj :=
  (Return VNone, h).

Definition nothing : func := user md_hello return_none.

(** [def odd_headers(event, context): return {'headers': None}] *)
Definition odd_headers : func := returning (ODict [("headers", VNone)]).

Definition ctx2 : context :=
  {| aws_request_id := "req-2"; function_name := "hello" |}.

(** * Properties *)

(** ** Association lists *)

Lemma assoc_get_set_eq {A} k (v : A) d : assoc_get k (assoc_set k v d) = Some v.
Proof.
  induction d as [|[k' v'] d IH]; simpl.
  - by rewrite decide_True.
  - destruct (decide (k = k')) as [->|Hne]; simpl.
    + by rewrite decide_True.
    + by rewrite decide_False.
Qed.

Lemma assoc_get_set_ne {A} k k' (v : A) d :
  k <> k' -> assoc_get k' (assoc_set k v d) = assoc_get k' d.
Proof.
  intros Hne. induction d as [|[k0 v0] d IH]; simpl.
  - by rewrite decide_False.
  - destruct (decide (k = k0)) as [->|Hk]; simpl.
    + by rewrite !decide_False.
    + destruct (decide (k' = k0)); done.
Qed.

Lemma Forall2_assoc_set {A B} (R : A -> B -> Prop) k v j d1 d2 :
  R v j ->
  Forall2 (fun kv kj => kv.1 = kj.1 /\ R kv.2 kj.2) d1 d2 ->
  Forall2 (fun kv kj => kv.1 = kj.1 /\ R kv.2 kj.2)
          (assoc_set k v d1) (assoc_set k j d2).
Proof.
  intros Hv. induction 1 as [|[k1 v1] [k2 j2] d1 d2 [Hk Hr] Hd IH]; simpl in *.
  - by repeat constructor.
  - subst k2. destruct (decide (k = k1)); by constructor.
Qed.

Lemma Forall2_assoc_of_list {A B} (R : A -> B -> Prop) d1 d2 :
  Forall2 (fun kv kj => kv.1 = kj.1 /\ R kv.2 kj.2) d1 d2 ->
  Forall2 (fun kv kj => kv.1 = kj.1 /\ R kv.2 kj.2)
          (assoc_of_list d1) (assoc_of_list d2).
Proof.
  unfold assoc_of_list.
  assert (forall acc1 acc2,
    Forall2 (fun (kv : string * A) (kj : string * B) =>
               kv.1 = kj.1 /\ R kv.2 kj.2) acc1 acc2 ->
    Forall2 (fun kv kj => kv.1 = kj.1 /\ R kv.2 kj.2) d1 d2 ->
    Forall2 (fun kv kj => kv.1 = kj.1 /\ R kv.2 kj.2)
      (foldl (fun acc kv => assoc_set kv.1 kv.2 acc) acc1 d1)
      (foldl (fun acc kv => assoc_set kv.1 kv.2 acc) acc2 d2)) as Hgen.
  { intros acc1 acc2 Hacc Hd. revert acc1 acc2 Hacc.
    induction Hd as [|[k1 v1] [k2 j2] d1 d2 [Hk Hr] Hd IH]; intros; simpl in *.
    - done.
    - subst k2. apply IH. by apply Forall2_assoc_set. }
  intros Hd. apply Hgen; [constructor | done].
Qed.

(** ** The heap *)

Lemma fresh_lookup (h : gmap loc obj) : h !! fresh (dom h) = None.
Proof. apply not_elem_of_dom, is_fresh. Qed.

Lemma as_dict_Some h v l d :
  as_dict h v = Some (l, d) <-> v = VRef l /\ h !! l = Some (ODict d).
Proof.
  unfold as_dict. split.
  - destruct v as [| | | | |l']; try done.
    destruct (h !! l') as [[]|] eqn:E; naive_solver.
  - by intros [-> ->].
Qed.

Lemma as_dict_ref h l d : h !! l = Some (ODict d) -> as_dict h (VRef l) = Some (l, d).
Proof. intros. by apply as_dict_Some. Qed.

Lemma dict_status_body (a b : value) :
  assoc_of_list [("statusCode", a); ("body", b)]
  = [("statusCode", a); ("body", b)].
Proof. reflexivity. Qed.

Lemma wraps_meta (md : metadata) (f : func) : fn_meta (wraps md f) = md.
Proof. by destruct md. Qed.

Lemma wraps_call (md : metadata) (f : func) : fn_call (wraps md f) = fn_call f.
Proof. reflexivity. Qed.

(** ** async_handler *)

(** C4.  The wrapper built by [async_handler] calls the coroutine function
    without arguments.  For a handler declared with the two parameters
    [(event, context)] the call itself fails with a [TypeError] and no
    coroutine is ever run; for a handler without parameters the coroutine
    is driven to completion and its result returned, and the result does
    not depend on the event or the context. *)
Theorem async_handler_forwards_nothing :
  (forall md body event ctx w,
      fn_call (async_handler (AsyncFunc md (AsyncDef2 body))) event ctx w
      = (Raise (Exn TypeError
                  (md_name md +:+
                   "() missing 2 required positional arguments: 'event' and 'context'")),
         w))
  /\ (forall md body event ctx w,
         fn_call (async_handler (AsyncFunc md (AsyncDef0 body))) event ctx w
         = run_until_complete EventLoop body w).
Proof. split; reflexivity. Qed.

(** The coroutine function of the docstring, which returns its event,
    never gets the event. *)
Example async_handler_hello :
  fn_call (async_handler hello_async) (VStr "ping") ctx1 w_init
  = (Raise (Exn TypeError
              "hello() missing 2 required positional arguments: 'event' and 'context'"),
     w_init).
Proof. reflexivity. Qed.

(** A coroutine suspended twice is resumed until it returns. *)
Example run_until_complete_resumes :
  run_until_complete EventLoop
    (CoAwait (fun w => (CoAwait (fun w' => (CoReturn (VInt 2), tick w')), tick w)))
    w_init
  = (Return (VInt 2), tick (tick w_init)).
Proof. reflexivity. Qed.

(** ** dump_json_body *)

(** C2.  [dump_json_body(H)] is [None]: the decorator never returns the
    wrapper it defines, so invoking the decorated handler raises a
    [TypeError] before [H] or any serialization runs. *)
Theorem dump_json_body_is_none (H : func) (event : value) (ctx : context)
    (w : world) :
  dump_json_body H = PNone
  /\ py_call (dump_json_body H) event ctx w
     = (Raise (Exn TypeError "'NoneType' object is not callable"), w).
Proof. split; reflexivity. Qed.

(** The wrapper that [dump_json_body] defines, had it been returned,
    subscripts [json.dumps] instead of calling it: for every response
    with a [body] key it answers 500 and leaves the response as it was. *)
Lemma dump_json_body_wrapper_always_500 (H : func) event ctx w l d b w1 :
  fn_call H event ctx w = (Return (VRef l), w1) ->
  heap w1 !! l = Some (ODict d) ->
  assoc_get "body" d = Some b ->
  fn_call (dump_json_body_wrapper H) event ctx w
  = (Return (VRef (fresh (dom (heap w1)))),
     set_heap (<[fresh (dom (heap w1)) :=
                   ODict [("statusCode", VInt 500);
                          ("body", VStr "'function' object is not subscriptable")]]>
                 (heap w1)) w1).
Proof.
  intros HH Hl Hb. unfold dump_json_body_wrapper.
  rewrite wraps_call. simpl. unfold bind at 1. rewrite HH.
  unfold bind at 1. unfold py_contains. rewrite Hl, Hb. simpl.
  reflexivity.
Qed.

(** The handler of the docstring: the decorated handler cannot be
    called, and the wrapper that was defined answers 500 where the
    docstring promises the serialized body. *)
Example dump_json_body_docstring :
  (py_call (dump_json_body hello_status_body) VNone ctx1 w_init).1
  = Raise (Exn TypeError "'NoneType' object is not callable")
  /\ exists w',
      fn_call (dump_json_body_wrapper hello_status_body) VNone ctx1 w_init
      = (Return (VRef 3%positive), w')
      /\ heap w' !! 3%positive
         = Some (ODict [("statusCode", VInt 500);
                        ("body", VStr "'function' object is not subscriptable")])
      /\ heap w' !! 2%positive
         = Some (ODict [("statusCode", VInt 200); ("body", VRef 1%positive)]).
Proof. split; [reflexivity |]. eexists. repeat split; vm_compute; reflexivity. Qed.

(** ** Metadata *)

(** C3.  Five of the six decorators return a wrapper that carries the
    module, name, qualified name and docstring of the handler it wraps;
    [dump_json_body] returns [None], which has no such metadata and is
    not callable. *)
Theorem decorators_keep_metadata_but_dump_json_body
    (json_loads : string -> outcome json)
    (json_dumps : gmap loc obj -> value -> outcome string)
    (H : func) (A : async_func) (origin : string) (w : world) :
  fn_meta (async_handler A) = af_meta A
  /\ (exists g, apply_cors (cors (Origin origin)) H = Some g
                /\ fn_meta g = fn_meta H)
  /\ (exists g, cors (Handler H) = Decorated g /\ fn_meta g = fn_meta H)
  /\ fn_meta (json_http_resp json_dumps H) = fn_meta H
  /\ fn_meta (load_json_body json_loads H) = fn_meta H
  /\ (exists g w', no_retry_on_failure H w = (Return g, w')
                   /\ fn_meta g = fn_meta H)
  /\ dump_json_body H = PNone.
Proof.
  repeat split.
  - apply wraps_meta.
  - eexists; split; [reflexivity | apply wraps_meta].
  - eexists; split; [reflexivity | apply wraps_meta].
  - apply wraps_meta.
  - apply wraps_meta.
  - do 2 eexists; split; [reflexivity | apply wraps_meta].
Qed.

(** The name of the wrapper before [wraps] rewrites it is [wrapper]. *)
Example wraps_renames :
  md_name (fn_meta (def_ "wrapper" "cors.<locals>.wrapper_wrapper.<locals>.wrapper"
                      (fun _ _ => ret VNone))) = "wrapper"
  /\ md_name (fn_meta (wrapper_wrapper "*" hello)) = "hello"
  /\ md_doc (fn_meta (wrapper_wrapper "*" hello)) = Some "Say hello.".
Proof. repeat split. Qed.

(** ** cors: the default origin *)

(** C8.  [cors(H)] and [cors('*')(H)] are wrappers with the same
    metadata and the same behaviour on every event, context and world. *)
Theorem cors_default_origin (H : func) :
  exists g1 g2,
    cors (Handler H) = Decorated g1
    /\ apply_cors (cors (Origin "*")) H = Some g2
    /\ fn_meta g1 = fn_meta g2
    /\ forall event ctx w, fn_call g1 event ctx w = fn_call g2 event ctx w.
Proof. do 2 eexists. repeat split; reflexivity. Qed.

(** ** json_http_resp *)

Section JsonHttpResp.

Variable json_dumps : gmap loc obj -> value -> outcome string.

(** The success path: the whole return value is serialized and wrapped
    into a fresh [{'statusCode': 200, 'body': text}]. *)
Lemma json_http_resp_ok (H : func) event ctx w V w1 text :
  fn_call H event ctx w = (Return V, w1) ->
  json_dumps (heap w1) V = Return text ->
  fn_call (json_http_resp json_dumps H) event ctx w
  = (Return (VRef (fresh (dom (heap w1)))),
     set_heap (<[fresh (dom (heap w1)) :=
                   ODict [("statusCode", VInt 200); ("body", VStr text)]]>
                 (heap w1)) w1).
Proof.
  intros HH Hd. unfold json_http_resp. rewrite wraps_call. simpl.
  unfold bind at 1. rewrite HH.
  unfold bind at 1, try_except, bind at 1, json_dumps_call. rewrite Hd.
  reflexivity.
Qed.

(** An exception of the handler itself is not caught. *)
Lemma json_http_resp_handler_raises (H : func) event ctx w e w1 :
  fn_call H event ctx w = (Raise e, w1) ->
  fn_call (json_http_resp json_dumps H) event ctx w = (Raise e, w1).
Proof.
  intros HH. unfold json_http_resp. rewrite wraps_call. simpl.
  unfold bind at 1. by rewrite HH.
Qed.

(** C1.  When [json.dumps] rejects the return value of the handler with
    an exception that [except Exception] catches, the wrapper returns no
    response at all: building the 500 response reads the local [body],
    which was never assigned, and the wrapper raises
    [UnboundLocalError] in the world the handler left. *)
Theorem json_http_resp_unserializable_raises (H : func) event ctx w V w1 e :
  fn_call H event ctx w = (Return V, w1) ->
  json_dumps (heap w1) V = Raise e ->
  is_Exception (exn_cls e) = true ->
  exists msg,
    fn_call (json_http_resp json_dumps H) event ctx w
    = (Raise (Exn UnboundLocalError msg), w1).
Proof.
  intros HH Hd He. eexists. unfold json_http_resp. rewrite wraps_call. simpl.
  unfold bind at 1. rewrite HH.
  unfold bind at 1, try_except, bind at 1, json_dumps_call. rewrite Hd.
  unfold except_Exception. rewrite He. reflexivity.
Qed.

(** An exception of [json.dumps] outside [Exception] passes through. *)
Lemma json_http_resp_dumps_interrupted (H : func) event ctx w V w1 e :
  fn_call H event ctx w = (Return V, w1) ->
  json_dumps (heap w1) V = Raise e ->
  is_Exception (exn_cls e) = false ->
  fn_call (json_http_resp json_dumps H) event ctx w = (Raise e, w1).
Proof.
  intros HH Hd He. unfold json_http_resp. rewrite wraps_call. simpl.
  unfold bind at 1. rewrite HH.
  unfold bind at 1, try_except, bind at 1, json_dumps_call. rewrite Hd.
  unfold except_Exception. rewrite He. reflexivity.
Qed.

End JsonHttpResp.

(** The handler that returns the set [{1}]: [json.dumps] raises a
    [TypeError], the wrapper raises [UnboundLocalError]. *)
Lemma json_http_resp_unserializable_raises_witness :
  json_dumps_sample (heap (fn_call hello_set VNone ctx1 w_init).2) (VRef 1%positive)
  = Raise (Exn TypeError "Object of type set is not JSON serializable")
  /\ exists msg,
      fn_call (json_http_resp json_dumps_sample hello_set) VNone ctx1 w_init
      = (Raise (Exn UnboundLocalError msg),
         (fn_call hello_set VNone ctx1 w_init).2).
Proof.
  split; [vm_compute; reflexivity |].
  eapply (json_http_resp_unserializable_raises json_dumps_sample hello_set
            VNone ctx1 w_init (VRef 1%positive)).
  - vm_compute; reflexivity.
  - vm_compute; reflexivity.
  - reflexivity.
Defined.

(** The docstring of [json_http_resp]: the handler returns
    [{'hello': 'world'}], the decorated handler a 200 response whose body
    is the JSON text of it. *)
Example json_http_resp_hello :
  exists w',
    fn_call (json_http_resp json_dumps_sample hello) VNone ctx1 w_init
    = (Return (VRef 2%positive), w')
    /\ heap w' !! 2%positive
       = Some (ODict [("statusCode", VInt 200);
                      ("body", VStr ("{" +:+ quoted "hello" +:+ ": "
                                         +:+ quoted "world" +:+ "}"))]).
Proof. eexists. split; vm_compute; reflexivity. Qed.

(** ** Building the objects of a JSON document *)

Lemma json_nested_ind (P : json -> Prop) :
  P JNull ->
  (forall b, P (JBool b)) ->
  (forall z, P (JInt z)) ->
  (forall bits, P (JFloat bits)) ->
  (forall s, P (JStr s)) ->
  (forall js, Forall P js -> P (JArr js)) ->
  (forall kvs, Forall (fun kj => P kj.2) kvs -> P (JObj kvs)) ->
  forall j, P j.
Proof.
  intros Hnull Hbool Hint Hfloat Hstr Harr Hobj.
  fix IH 1. intros [| b | z | bits | s | js | kvs].
  - exact Hnull.
  - apply Hbool.
  - apply Hint.
  - apply Hfloat.
  - apply Hstr.
  - apply Harr. induction js as [|j js IHjs]; constructor;
      [apply IH | exact IHjs].
  - apply Hobj. induction kvs as [|[k j] kvs IHkvs]; constructor;
      [apply IH | exact IHkvs].
Qed.

Lemma set_heap_same (w w0 : world) :
  w = set_heap (heap w) w0 -> cells w = cells w0 /\ ncalls w = ncalls w0.
Proof. intros ->. done. Qed.

Lemma mapM_allocates {A B} (R : gmap loc obj -> B -> A -> Prop) f xs :
  Forall (allocates R f) xs ->
  allocates (fun h => Forall2 (R h)) (mapM f) xs.
Proof.
  induction 1 as [|x xs Hx Hxs IH]; intros w.
  - exists [], w. repeat split; [done | by destruct w | constructor].
  - destruct (Hx w) as (b & w1 & Hf & Hsub1 & Hw1 & HR1).
    destruct (IH w1) as (bs & w2 & Hm & Hsub2 & Hw2 & HR2).
    exists (b :: bs), w2. simpl. unfold bind at 1. rewrite Hf.
    unfold bind at 1. fold (mapM f). rewrite Hm. simpl.
    repeat split.
    + by etrans.
    + rewrite Hw2, Hw1. reflexivity.
    + intros h2 Hk. constructor.
      * apply HR1. intros l o Hl Hl1. apply (Hk l o Hl).
        by eapply lookup_weaken.
      * apply HR2. intros l o Hl Hl2. apply (Hk l o); [|done].
        destruct (heap w !! l) as [o'|] eqn:E; [|done].
        eapply lookup_weaken in E; [|exact Hsub1]. congruence.
Qed.

Lemma alloc_allocates {A} (R : gmap loc obj -> value -> A -> Prop)
    (o : obj) (a : A) (w0 w : world) :
  heap w0 ⊆ heap w ->
  w = set_heap (heap w) w0 ->
  (forall h2 l, heap w0 !! l = None -> h2 !! l = Some o ->
                keeps_new (heap w0) (heap w) h2 -> R h2 (VRef l) a) ->
  exists v w',
    alloc o w = (Return v, w')
    /\ heap w0 ⊆ heap w'
    /\ w' = set_heap (heap w') w0
    /\ forall h2, keeps_new (heap w0) (heap w') h2 -> R h2 v a.
Proof.
  intros Hsub Hw HR. do 2 eexists. split; [reflexivity |].
  pose proof (fresh_lookup (heap w)) as Hfresh. simpl. repeat split.
  - etrans; [exact Hsub |]. by apply insert_subseteq.
  - apply set_heap_same in Hw as [Hc Hn]. unfold set_heap. simpl.
    by rewrite Hc, Hn.
  - intros h2 Hk. apply HR.
    + destruct (heap w0 !! _) as [o'|] eqn:E; [|done].
      eapply lookup_weaken in E; [|exact Hsub]. congruence.
    + apply Hk.
      * destruct (heap w0 !! _) as [o'|] eqn:E; [|done].
        eapply lookup_weaken in E; [|exact Hsub]. congruence.
      * by rewrite lookup_insert_eq.
    + intros l o' Hl Hl'. apply Hk; [done |].
      rewrite lookup_insert_ne; [done |]. intros <-. congruence.
Qed.

Lemma alloc_json_allocates (j : json) : allocates denotes alloc_json j.
Proof.
  induction j as [| b | z | bits | s | js IH | kvs IH] using json_nested_ind;
    try (intros w; do 2 eexists; simpl;
         repeat split; [done | by destruct w | intros; constructor]).
  - intros w. simpl.
    destruct (mapM_allocates denotes alloc_json js IH w)
      as (vs & w1 & Hm & Hsub & Hw1 & HR).
    assert (forall h2 l, heap w !! l = None -> h2 !! l = Some (OList vs) ->
              keeps_new (heap w) (heap w1) h2 -> denotes h2 (VRef l) (JArr js))
      as Hden.
    { intros h2 l _ Hl Hk. econstructor; [exact Hl | by apply HR]. }
    destruct (alloc_allocates denotes (OList vs) (JArr js) w w1 Hsub Hw1 Hden)
      as (v & w2 & Ha & Hsub2 & Hw2 & HR2).
    exists v, w2. unfold bind at 1. rewrite Hm. by repeat split.
  - intros w. simpl.
    set (R := fun h (kv : string * value) (kj : string * json) =>
                kv.1 = kj.1 /\ denotes h kv.2 kj.2).
    set (f := fun kj : string * json =>
                let '(k, j) := kj in v <- alloc_json j ;; ret (k, v)).
    assert (Forall (allocates R f) kvs) as Hall.
    { eapply Forall_impl; [exact IH |]. intros [k j0] Hj w'. simpl in Hj.
      destruct (Hj w') as (v & w1 & Hv & Hsub & Hw1 & HR).
      exists (k, v), w1. unfold f, bind. rewrite Hv. simpl.
      split; [done |]. split; [done |]. split; [done |].
      intros h2 Hk. split; [done | by apply HR]. }
    destruct (mapM_allocates R f kvs Hall w)
      as (d & w1 & Hm & Hsub & Hw1 & HR).
    assert (forall h2 l, heap w !! l = None ->
              h2 !! l = Some (ODict (assoc_of_list d)) ->
              keeps_new (heap w) (heap w1) h2 -> denotes h2 (VRef l) (JObj kvs))
      as Hden.
    { intros h2 l _ Hl Hk. econstructor; [exact Hl |].
      apply Forall2_assoc_of_list. by apply HR. }
    destruct (alloc_allocates denotes (ODict (assoc_of_list d)) (JObj kvs)
                w w1 Hsub Hw1 Hden) as (v & w2 & Ha & Hsub2 & Hw2 & HR2).
    exists v, w2. unfold bind at 1. fold f. rewrite Hm. by repeat split.
Qed.

(** [denotes] fixes the scalars and follows references. *)
Example denotes_examples :
  denotes {[ 1%positive := OList [VInt 1; VNone] ]} (VRef 1%positive)
          (JArr [JInt 1; JNull])
  /\ ~ denotes ∅ (VInt 1) (JInt 2)
  /\ ~ denotes ∅ (VRef 1%positive) (JArr []).
Proof.
  split; [|split].
  - econstructor; [reflexivity |]. repeat constructor.
  - inversion 1.
  - inversion 1 as [| | | | |l vs js Hl|]. by rewrite lookup_empty in Hl.
Qed.

(** Updating an object that existed before the allocation keeps the
    new objects as they are. *)
Lemma keeps_new_insert_old (h h' : gmap loc obj) l o o' :
  h !! l = Some o -> keeps_new h h' (<[l := o']> h').
Proof.
  intros Hl l' o1 Hnone Hsome.
  rewrite lookup_insert_ne; [done |]. intros <-. congruence.
Qed.

(** ** load_json_body *)

Section LoadJsonBody.

Variable json_loads : string -> outcome json.

(** C5.  When the [body] of the event is a string that [json.loads]
    rejects, the wrapper returns a fresh dictionary that is exactly
    [{'statusCode': 400, 'body': 'BAD REQUEST'}]; the world is otherwise
    the one it was called in, call counter included, whatever the
    wrapped handler is: the handler is not invoked. *)
Theorem load_json_body_bad_request (H : func) (l : loc) d S e ctx w :
  heap w !! l = Some (ODict d) ->
  assoc_get "body" d = Some (VStr S) ->
  json_loads S = Raise e ->
  exists r w',
    fn_call (load_json_body json_loads H) (VRef l) ctx w = (Return (VRef r), w')
    /\ heap w !! r = None
    /\ heap w' = <[r := ODict [("statusCode", VInt 400);
                               ("body", VStr "BAD REQUEST")]]> (heap w)
    /\ cells w' = cells w
    /\ ncalls w' = ncalls w.
Proof.
  intros Hl Hb HS. do 2 eexists. split.
  - unfold load_json_body. rewrite wraps_call. simpl.
    unfold bind at 1, py_get. rewrite (as_dict_ref _ _ _ Hl), Hb. simpl.
    unfold bind at 1, try_except, bind at 1, py_getitem, getitem.
    rewrite (as_dict_ref _ _ _ Hl), Hb.
    unfold bind at 1, json_loads_call. rewrite HS. simpl.
    reflexivity.
  - simpl. split; [apply fresh_lookup | done].
Qed.

(** C6.  For an event that is a dictionary:
    - when [body] is a string that [json.loads] accepts as the document
      [j], the objects of [j] are built, the [body] entry of the event is
      replaced by them, and the result is that of the wrapped handler on
      the updated event; in particular [lambda e, c: e['body']] returns
      the objects of [j];
    - when [body] is absent or is not a string, the result is that of
      the wrapped handler in the unchanged world. *)
Theorem load_json_body_parses_body (H : func) (l : loc) d ctx w :
  heap w !! l = Some (ODict d) ->
  (forall S j,
      assoc_get "body" d = Some (VStr S) ->
      json_loads S = Return j ->
      exists v w1,
        alloc_json j w = (Return v, w1)
        /\ let w' := set_heap (<[l := ODict (assoc_set "body" v d)]> (heap w1))
                              w1 in
           denotes (heap w') v j
           /\ getitem (heap w') (VRef l) "body" = Return v
           /\ fn_call (load_json_body json_loads H) (VRef l) ctx w
              = fn_call H (VRef l) ctx w'
           /\ fn_call (load_json_body json_loads get_body) (VRef l) ctx w
              = (Return v, tick w'))
  /\ (assoc_get "body" d = None ->
      fn_call (load_json_body json_loads H) (VRef l) ctx w
      = fn_call H (VRef l) ctx w)
  /\ (forall b,
         assoc_get "body" d = Some b -> is_str b = false ->
         fn_call (load_json_body json_loads H) (VRef l) ctx w
         = fn_call H (VRef l) ctx w).
Proof.
  intros Hl. split; [|split].
  - intros S j Hb HS.
    destruct (alloc_json_allocates j w) as (v & w1 & Ha & Hsub & Hw1 & Hden).
    exists v, w1. split; [done |]. cbv zeta.
    assert (heap w1 !! l = Some (ODict d)) as Hl1
        by (by eapply lookup_weaken).
    assert (forall G : func,
      fn_call (load_json_body json_loads G) (VRef l) ctx w
      = fn_call G (VRef l) ctx
          (set_heap (<[l := ODict (assoc_set "body" v d)]> (heap w1)) w1))
      as Hrun.
    { intros G. unfold load_json_body. rewrite wraps_call. simpl.
      unfold bind at 1, py_get. rewrite (as_dict_ref _ _ _ Hl), Hb. simpl.
      unfold bind at 1, try_except, bind at 1, py_getitem, getitem.
      rewrite (as_dict_ref _ _ _ Hl), Hb.
      unfold bind at 1, json_loads_call. rewrite HS, Ha.
      unfold bind at 1, py_setitem. rewrite (as_dict_ref _ _ _ Hl1).
      reflexivity. }
    assert (getitem (<[l := ODict (assoc_set "body" v d)]> (heap w1))
              (VRef l) "body" = Return v) as Hget.
    { unfold getitem. erewrite as_dict_ref; [|apply lookup_insert_eq].
      by rewrite assoc_get_set_eq. }
    split; [|split; [|split]].
    + apply Hden. by eapply keeps_new_insert_old.
    + exact Hget.
    + apply Hrun.
    + rewrite Hrun. simpl. by rewrite Hget.
  - intros Hb. unfold load_json_body. rewrite wraps_call. simpl.
    unfold bind at 1, py_get. rewrite (as_dict_ref _ _ _ Hl), Hb. reflexivity.
  - intros b Hb Hstr. unfold load_json_body. rewrite wraps_call. simpl.
    unfold bind at 1, py_get. rewrite (as_dict_ref _ _ _ Hl), Hb. simpl.
    rewrite Hstr. reflexivity.
Qed.

End LoadJsonBody.

(** The event [{'body': '{bad'}]: the handler [hello] is not entered. *)
Lemma load_json_body_bad_request_witness :
  exists r w',
    fn_call (load_json_body json_loads_sample hello) (VRef 1%positive) ctx1
            (w_event (VStr "{bad"))
    = (Return (VRef r), w')
    /\ heap (w_event (VStr "{bad")) !! r = None
    /\ heap w' = <[r := ODict [("statusCode", VInt 400);
                               ("body", VStr "BAD REQUEST")]]>
                   (heap (w_event (VStr "{bad")))
    /\ cells w' = cells (w_event (VStr "{bad"))
    /\ ncalls w' = ncalls (w_event (VStr "{bad")).
Proof.
  eapply (load_json_body_bad_request json_loads_sample hello 1%positive
            [("body", VStr "{bad")] "{bad").
  - vm_compute; reflexivity.
  - reflexivity.
  - vm_compute; reflexivity.
Defined.

(** The event [{'body': '{"name": 7}'}]: [lambda e, c: e['body']] returns
    the dictionary [{'name': 7}]. *)
Lemma load_json_body_parses_body_witness :
  exists v w',
    fn_call (load_json_body json_loads_sample get_body) (VRef 1%positive) ctx1
            (w_event (VStr doc_name))
    = (Return v, w')
    /\ denotes (heap w') v (JObj [("name", JInt 7)]).
Proof.
  destruct (load_json_body_parses_body json_loads_sample hello 1%positive
              [("body", VStr doc_name)] ctx1 (w_event (VStr doc_name)))
    as [Hvalid _]; [vm_compute; reflexivity |].
  destruct (Hvalid doc_name (JObj [("name", JInt 7)]))
    as (v & w1 & _ & Hden & _ & _ & Hget);
    [reflexivity | vm_compute; reflexivity |].
  exists v. eexists. split; [exact Hget | exact Hden].
Defined.

Example load_json_body_name :
  exists w',
    fn_call (load_json_body json_loads_sample get_body) (VRef 1%positive) ctx1
            (w_event (VStr doc_name))
    = (Return (VRef 2%positive), w')
    /\ heap w' !! 2%positive = Some (ODict [("name", VInt 7)])
    /\ heap w' !! 1%positive = Some (ODict [("body", VRef 2%positive)])
    /\ ncalls w' = 1.
Proof. eexists. repeat split; vm_compute; reflexivity. Qed.

(** ** no_retry_on_failure *)

Lemma size_difference_new (X Y : gset string) (x : string) :
  x ∉ X -> x ∈ Y -> size (Y ∖ X) = S (size (Y ∖ ({[x]} ∪ X))).
Proof.
  intros Hx Hy. replace (Y ∖ X) with ({[x]} ∪ Y ∖ ({[x]} ∪ X)).
  - rewrite size_union by set_solver. rewrite size_singleton. lia.
  - apply set_eq. intros y. destruct (decide (y = x)); set_solver.
Qed.

Section NoRetry.

Variable md : metadata.
Variable f : value -> context -> gmap loc obj -> outcome value * gmap loc obj.

Lemma user_call event ctx w :
  fn_call (user md f) event ctx w
  = ((f event ctx (heap w)).1, set_heap (f event ctx (heap w)).2 (tick w)).
Proof. simpl. by destruct (f event ctx (heap w)). Qed.

(** A user handler bumps the call counter and cannot reach the cells. *)
Lemma user_call_world event ctx w :
  cells (fn_call (user md f) event ctx w).2 = cells w
  /\ ncalls (fn_call (user md f) event ctx w).2 = S (ncalls w).
Proof. by rewrite user_call. Qed.

Lemma seen_cell_add cell x w :
  seen cell (cell_add cell x w).2 = {[x]} ∪ seen cell w.
Proof. unfold seen at 1. simpl. by rewrite lookup_insert_eq. Qed.


(** The decorator allocates an empty set and returns the wrapper. *)
Lemma no_retry_on_failure_new w0 :
  no_retry_on_failure (user md f) w0
  = (Return (no_retry_wrapper (fresh (dom (cells w0))) (user md f)),
     set_cells (<[fresh (dom (cells w0)) := ∅]> (cells w0)) w0).
Proof. reflexivity. Qed.

(** An identifier that was not seen is recorded, then the handler runs. *)
Lemma no_retry_delegates cell event ctx w :
  aws_request_id ctx ∉ seen cell w ->
  fn_call (no_retry_wrapper cell (user md f)) event ctx w
  = fn_call (user md f) event ctx (cell_add cell (aws_request_id ctx) w).2.
Proof.
  intros Hnew. unfold no_retry_wrapper. rewrite wraps_call.
  unfold def_, fn_call at 1. unfold bind at 1, cell_contains.
  by rewrite bool_decide_eq_false_2.
Qed.

(** An identifier that was seen raises, and nothing changes. *)
Lemma no_retry_raises cell event ctx w :
  aws_request_id ctx ∈ seen cell w ->
  fn_call (no_retry_wrapper cell (user md f)) event ctx w
  = (Raise (Exn RuntimeError (retry_message (aws_request_id ctx))), w).
Proof.
  intros Hdup. unfold no_retry_wrapper. rewrite wraps_call.
  unfold def_, fn_call at 1. unfold bind at 1, cell_contains.
  by rewrite bool_decide_eq_true_2.
Qed.

Lemma no_retry_step cell event ctx w :
  let w' := (fn_call (no_retry_wrapper cell (user md f)) event ctx w).2 in
  (aws_request_id ctx ∈ seen cell w -> w' = w)
  /\ (aws_request_id ctx ∉ seen cell w ->
      seen cell w' = {[aws_request_id ctx]} ∪ seen cell w
      /\ ncalls w' = S (ncalls w)).
Proof.
  cbv zeta. split; intros Hid.
  - by rewrite no_retry_raises.
  - rewrite no_retry_delegates by done.
    destruct (user_call_world event ctx (cell_add cell (aws_request_id ctx) w).2)
      as [Hc Hn].
    split; [|by rewrite Hn].
    unfold seen at 1. rewrite Hc. apply seen_cell_add.
Qed.

Lemma invoke_all_cons (g : func) event ctx invs w :
  invoke_all g ((event, ctx) :: invs) w
  = invoke_all g invs (fn_call g event ctx w).2.
Proof. reflexivity. Qed.

Lemma no_retry_invoke_all cell invs w :
  let wn := invoke_all (no_retry_wrapper cell (user md f)) invs w in
  seen cell wn = seen cell w ∪ request_ids invs
  /\ ncalls wn = ncalls w + size (seen cell wn ∖ seen cell w).
Proof.
  cbv zeta. revert w.
  induction invs as [|[event ctx] invs IH]; intros w.
  - unfold request_ids. simpl. split; [set_solver |].
    replace (seen cell w ∖ seen cell w) with (∅ : gset string) by set_solver.
    rewrite size_empty. lia.
  - pose proof (no_retry_step cell event ctx w) as Hstep.
    cbv zeta in Hstep. destruct Hstep as [Hdup Hnew].
    specialize (IH (fn_call (no_retry_wrapper cell (user md f)) event ctx w).2).
    destruct IH as [IHs IHn].
    rewrite invoke_all_cons.
    remember (fn_call (no_retry_wrapper cell (user md f)) event ctx w).2
      as w1 eqn:Ew1. clear Ew1.
    remember (invoke_all (no_retry_wrapper cell (user md f)) invs w1)
      as wn eqn:Ewn. clear Ewn.
    unfold request_ids in *. simpl.
    destruct (decide (aws_request_id ctx ∈ seen cell w)) as [Hin|Hnin].
    + rewrite (Hdup Hin) in IHs, IHn. split; [set_solver | done].
    + destruct (Hnew Hnin) as [Hs Hn]. rewrite Hs in IHs, IHn.
      split; [set_solver |]. rewrite IHn, Hn.
      rewrite (size_difference_new (seen cell w) (seen cell wn)
                 (aws_request_id ctx)); [lia | done | set_solver].
Qed.

(** C9.  Let [G] be the handler [no_retry_on_failure] returns for a user
    handler; its set of seen identifiers starts empty.  In every world
    where the identifier [I] of the context has not been seen, a first
    invocation of [G] records [I] and is the invocation of the handler
    itself (one more entry into it); a second invocation with a context
    that carries [I] raises [RuntimeError] and changes nothing, so the
    handler has been entered once in total. *)
Theorem no_retry_on_failure_rejects_retry w0 G w1 e1 e2 c1 c2 :
  no_retry_on_failure (user md f) w0 = (Return G, w1) ->
  aws_request_id c2 = aws_request_id c1 ->
  exists cell,
    seen cell w1 = ∅
    /\ forall w, aws_request_id c1 ∉ seen cell w ->
         exists r1 w2,
           fn_call G e1 c1 w = (r1, w2)
           /\ (r1, w2) = fn_call (user md f) e1 c1
                           (cell_add cell (aws_request_id c1) w).2
           /\ seen cell w2 = {[aws_request_id c1]} ∪ seen cell w
           /\ ncalls w2 = S (ncalls w)
           /\ fn_call G e2 c2 w2
              = (Raise (Exn RuntimeError (retry_message (aws_request_id c1))),
                 w2).
Proof.
  rewrite no_retry_on_failure_new. intros [= <- <-] Hid.
  exists (fresh (dom (cells w0))). split.
  - unfold seen. simpl. by rewrite lookup_insert_eq.
  - intros w Hnew.
    destruct (fn_call (no_retry_wrapper (fresh (dom (cells w0))) (user md f))
                e1 c1 w) as [r1 w2] eqn:Hcall.
    exists r1, w2. split; [done |].
    pose proof (no_retry_step (fresh (dom (cells w0))) e1 c1 w) as Hstep.
    cbv zeta in Hstep. rewrite Hcall in Hstep. simpl in Hstep.
    destruct Hstep as [_ Hstep]. destruct (Hstep Hnew) as [Hs Hn].
    split; [by rewrite <- Hcall, no_retry_delegates |].
    split; [done |]. split; [done |].
    rewrite <- Hid. apply no_retry_raises. rewrite Hid, Hs. set_solver.
Qed.

(** C10.  One invocation of the guarded handler either finds the
    identifier in the set, raises and leaves the world (hence the set)
    as it was, or adds exactly that identifier, which was not in the
    set, and enters the handler.  So the set never shrinks; after any
    sequence of invocations it is the initial set with the identifiers
    of the sequence, and the handler was entered once per identifier
    added. *)
Theorem no_retry_seen_set_grows cell event ctx w invs :
  let G := no_retry_wrapper cell (user md f) in
  let w' := (fn_call G event ctx w).2 in
  let wn := invoke_all G invs w in
  (aws_request_id ctx ∈ seen cell w ->
   fn_call G event ctx w
   = (Raise (Exn RuntimeError (retry_message (aws_request_id ctx))), w))
  /\ (aws_request_id ctx ∉ seen cell w ->
      seen cell w' = {[aws_request_id ctx]} ∪ seen cell w
      /\ ncalls w' = S (ncalls w))
  /\ seen cell w ⊆ seen cell w'
  /\ seen cell w ⊆ seen cell wn
  /\ seen cell wn = seen cell w ∪ request_ids invs
  /\ ncalls wn = ncalls w + size (seen cell wn ∖ seen cell w).
Proof.
  cbv zeta.
  destruct (no_retry_step cell event ctx w) as [Hdup Hnew].
  destruct (no_retry_invoke_all cell invs w) as [Hs Hn].
  split; [apply no_retry_raises |]. split; [exact Hnew |].
  split; [|split; [|split]]; [| |done|done].
  - destruct (decide (aws_request_id ctx ∈ seen cell w)) as [Hin|Hnin].
    + by rewrite (Hdup Hin).
    + destruct (Hnew Hnin) as [-> _]. set_solver.
  - rewrite Hs. set_solver.
Qed.

End NoRetry.

(** The guard around [hello], invoked twice with the request [req-1]. *)
Lemma no_retry_on_failure_rejects_retry_witness :
  exists G w1 r1 w2,
    no_retry_on_failure hello w_init = (Return G, w1)
    /\ fn_call G VNone ctx1 w1 = (r1, w2)
    /\ ncalls w2 = 1
    /\ fn_call G VNone ctx1 w2
       = (Raise (Exn RuntimeError "Retry attempt on request id req-1 detected."),
          w2).
Proof.
  destruct (no_retry_on_failure_rejects_retry md_hello
              (return_new (ODict [("hello", VStr "world")])) w_init _ _
              VNone VNone ctx1 ctx1 eq_refl eq_refl) as (cell & Hempty & Hrun).
  destruct (Hrun (set_cells (<[fresh (dom (cells w_init)) := ∅]>
                               (cells w_init)) w_init)) as
    (r1 & w2 & Hfirst & _ & _ & Hn & Hsecond).
  { rewrite Hempty. set_solver. }
  do 4 eexists. split; [reflexivity |]. split; [exact Hfirst |].
  split; [exact Hn | exact Hsecond].
Defined.

Example no_retry_twice :
  let G := no_retry_wrapper 1%positive hello in
  let w1 := (no_retry_on_failure hello w_init).2 in
  let w2 := (fn_call G VNone ctx1 w1).2 in
  (fn_call G VNone ctx1 w1).1 = Return (VRef 1%positive)
  /\ (fn_call G VNone ctx1 w2).1
     = Raise (Exn RuntimeError "Retry attempt on request id req-1 detected.")
  /\ ncalls (fn_call G VNone ctx1 w2).2 = 1.
Proof. repeat split; vm_compute; reflexivity. Qed.

(** ** cors: the header *)

Lemma getitem_dict (h : gmap loc obj) l d k :
  h !! l = Some (ODict d) ->
  getitem h (VRef l) k
  = match assoc_get k d with
    | Some v => Return v
    | None => Raise (Exn KeyError ("'" +:+ k +:+ "'"))
    end.
Proof. intros Hl. unfold getitem. by rewrite (as_dict_ref _ _ _ Hl). Qed.

Lemma is_response_inv (h : gmap loc obj) r :
  is_response h r = true ->
  exists l d,
    r = VRef l /\ h !! l = Some (ODict d)
    /\ forall hs, assoc_get "headers" d = Some hs ->
                  exists lh dh, hs = VRef lh /\ h !! lh = Some (ODict dh).
Proof.
  unfold is_response. destruct (as_dict h r) as [[l d]|] eqn:E; [|done].
  apply as_dict_Some in E as [-> Hl]. intros Hhs. exists l, d.
  split; [done |]. split; [done |]. intros hs Hget. rewrite Hget in Hhs.
  apply bool_decide_eq_true in Hhs as [[lh dh] Hd].
  apply as_dict_Some in Hd as [-> Hlh]. by exists lh, dh.
Qed.

(** What the wrapper of [cors] does to a response of the handler. *)
Lemma wrapper_wrapper_response (H : func) (origin : string) event ctx w r w1 :
  fn_call H event ctx w = (Return r, w1) ->
  is_response (heap w1) r = true ->
  exists w2 hs,
    fn_call (wrapper_wrapper origin H) event ctx w = (Return r, w2)
    /\ getitem (heap w2) r "headers" = Return hs
    /\ is_Some (as_dict (heap w2) hs)
    /\ getitem (heap w2) hs ACAO = Return (VStr origin)
    /\ (forall hs0, getitem (heap w1) r "headers" = Return hs0 ->
          hs = hs0
          /\ forall k, k <> ACAO ->
               getitem (heap w2) hs k = getitem (heap w1) hs k)
    /\ (forall e, getitem (heap w1) r "headers" = Raise e ->
          exists lh, hs = VRef lh /\ heap w1 !! lh = None
                     /\ heap w2 !! lh = Some (ODict [(ACAO, VStr origin)]))
    /\ (forall k, k <> "headers" -> k <> ACAO ->
          getitem (heap w2) r k = getitem (heap w1) r k)
    /\ cells w2 = cells w1
    /\ ncalls w2 = ncalls w1.
Proof.
  intros HH Hresp.
  destruct (is_response_inv _ _ Hresp) as (l & d & -> & Hl & Hhs).
  pose proof (fresh_lookup (heap w1)) as Hfresh.
  set (l0 := fresh (dom (heap w1))) in *.
  assert (l <> l0) as Hne by congruence.
  unfold wrapper_wrapper. rewrite wraps_call. unfold def_, fn_call at 1.
  unfold bind at 1. rewrite HH.
  unfold bind at 1, py_getattr_setdefault. rewrite (as_dict_ref _ _ _ Hl).
  unfold bind at 1, new_dict, alloc. fold l0.
  unfold bind at 1, py_setdefault.
  assert (heap (set_heap (<[l0 := ODict (assoc_of_list [])]> (heap w1)) w1) !! l
          = Some (ODict d)) as Hl' by (simpl; by rewrite lookup_insert_ne).
  rewrite (as_dict_ref _ _ _ Hl'). rewrite (getitem_dict _ _ _ _ Hl).
  destruct (assoc_get "headers" d) as [hs|] eqn:Hget.
  - (* the response has its headers *)
    destruct (Hhs hs eq_refl) as (lh & dh & -> & Hlh).
    assert (lh <> l0) as Hne' by congruence.
    unfold bind at 1, py_setitem.
    assert (heap (set_heap (<[l0 := ODict (assoc_of_list [])]> (heap w1)) w1)
              !! lh = Some (ODict dh)) as Hlh'
        by (simpl; by rewrite lookup_insert_ne).
    rewrite (as_dict_ref _ _ _ Hlh'). simpl.
    do 2 eexists. split; [reflexivity |]. simpl.
    assert (forall k, k <> ACAO ->
              getitem (<[lh := ODict (assoc_set ACAO (VStr origin) dh)]>
                         (<[l0 := ODict (assoc_of_list [])]> (heap w1)))
                      (VRef lh) k
              = getitem (heap w1) (VRef lh) k) as Hother.
    { intros k Hk. erewrite getitem_dict; [|apply lookup_insert_eq].
      rewrite (getitem_dict _ _ _ _ Hlh). by rewrite assoc_get_set_ne. }
    assert (forall k, k <> ACAO ->
              getitem (<[lh := ODict (assoc_set ACAO (VStr origin) dh)]>
                         (<[l0 := ODict (assoc_of_list [])]> (heap w1)))
                      (VRef l) k
              = getitem (heap w1) (VRef l) k) as Hresp_other.
    { intros k Hk. destruct (decide (l = lh)) as [->|Hllh].
      - by apply Hother.
      - erewrite getitem_dict;
          [|by rewrite lookup_insert_ne, lookup_insert_ne].
        by rewrite (getitem_dict _ _ _ _ Hl). }
    split; [|split; [|split; [|split; [|split; [|split]]]]].
    + rewrite Hresp_other by done. by rewrite (getitem_dict _ _ _ _ Hl), Hget.
    + eexists. apply as_dict_ref, lookup_insert_eq.
    + erewrite getitem_dict; [|apply lookup_insert_eq].
      by rewrite assoc_get_set_eq.
    + intros hs0 [= <-]. split; [done | exact Hother].
    + intros e [=].
    + intros k _ Hk. by apply Hresp_other.
    + done.
  - (* no headers yet: the empty dictionary becomes the headers *)
    unfold bind at 1, py_setitem.
    assert (heap (set_heap
                    (<[l := ODict (assoc_set "headers" (VRef l0) d)]>
                       (heap (set_heap
                                (<[l0 := ODict (assoc_of_list [])]> (heap w1))
                                w1)))
                    (set_heap (<[l0 := ODict (assoc_of_list [])]> (heap w1)) w1))
              !! l0 = Some (ODict [])) as Hl0.
    { simpl. rewrite lookup_insert_ne by done. apply lookup_insert_eq. }
    rewrite (as_dict_ref _ _ _ Hl0). simpl.
    do 2 eexists. split; [reflexivity |]. simpl.
    split; [|split; [|split; [|split; [|split; [|split]]]]].
    + erewrite getitem_dict;
        [|rewrite lookup_insert_ne by done; apply lookup_insert_eq].
      by rewrite assoc_get_set_eq.
    + eexists. apply as_dict_ref, lookup_insert_eq.
    + erewrite getitem_dict; [|apply lookup_insert_eq]. reflexivity.
    + intros hs0 [=].
    + intros e _. exists l0. split; [done |]. split; [done |].
      apply lookup_insert_eq.
    + intros k Hk _. erewrite getitem_dict;
        [|rewrite lookup_insert_ne by done; apply lookup_insert_eq].
      rewrite (getitem_dict _ _ _ _ Hl). by rewrite assoc_get_set_ne.
    + done.
Qed.

(** C7.  Let the handler return a response [r] (a dictionary whose
    [headers], when present, is a dictionary).  Then [cors(O)(H)] returns
    the same object [r]; afterwards [r['headers']] is a dictionary whose
    [Access-Control-Allow-Origin] entry is [O].  Headers that were there
    are the same object with its other entries unchanged; absent headers
    are a new dictionary with that entry only; the other entries of the
    response are unchanged. *)
Theorem cors_sets_allow_origin (H : func) (O : string) event ctx w r w1 :
  fn_call H event ctx w = (Return r, w1) ->
  is_response (heap w1) r = true ->
  exists g w2 hs,
    apply_cors (cors (Origin O)) H = Some g
    /\ fn_call g event ctx w = (Return r, w2)
    /\ getitem (heap w2) r "headers" = Return hs
    /\ is_Some (as_dict (heap w2) hs)
    /\ getitem (heap w2) hs ACAO = Return (VStr O)
    /\ (forall hs0, getitem (heap w1) r "headers" = Return hs0 ->
          hs = hs0
          /\ forall k, k <> ACAO ->
               getitem (heap w2) hs k = getitem (heap w1) hs k)
    /\ (forall e, getitem (heap w1) r "headers" = Raise e ->
          exists lh, hs = VRef lh /\ heap w1 !! lh = None
                     /\ heap w2 !! lh = Some (ODict [(ACAO, VStr O)]))
    /\ (forall k, k <> "headers" -> k <> ACAO ->
          getitem (heap w2) r k = getitem (heap w1) r k).
Proof.
  intros HH Hresp.
  destruct (wrapper_wrapper_response H O event ctx w r w1 HH Hresp)
    as (w2 & hs & Hcall & Hhs & Hdict & Horigin & Hold & Hnew & Hother & _).
  exists (wrapper_wrapper O H), w2, hs.
  split; [reflexivity |]. split; [exact Hcall |]. split; [exact Hhs |].
  split; [exact Hdict |]. split; [exact Horigin |]. split; [exact Hold |].
  split; [exact Hnew | exact Hother].
Qed.

(** The docstring of [cors]: [hello] returns [{'hello': 'world'}], which
    has no headers. *)
Lemma cors_sets_allow_origin_witness :
  exists g w2 hs,
    apply_cors (cors (Origin "https://example.com")) hello = Some g
    /\ fn_call g VNone ctx1 w_init = (Return (VRef 1%positive), w2)
    /\ getitem (heap w2) (VRef 1%positive) "headers" = Return hs
    /\ getitem (heap w2) hs ACAO = Return (VStr "https://example.com").
Proof.
  destruct (cors_sets_allow_origin hello "https://example.com" VNone ctx1
              w_init (VRef 1%positive) (fn_call hello VNone ctx1 w_init).2)
    as (g & w2 & hs & Hg & Hcall & Hhs & _ & Horigin & _).
  - vm_compute; reflexivity.
  - vm_compute; reflexivity.
  - exists g, w2, hs. split; [exact Hg |]. split; [exact Hcall |].
    split; [exact Hhs | exact Horigin].
Defined.

Example cors_hello :
  exists g w2,
    cors (Handler hello) = Decorated g
    /\ fn_call g VNone ctx1 w_init = (Return (VRef 1%positive), w2)
    /\ heap w2 !! 1%positive
       = Some (ODict [("hello", VStr "world"); ("headers", VRef 2%positive)])
    /\ heap w2 !! 2%positive = Some (ODict [(ACAO, VStr "*")]).
Proof. do 2 eexists. repeat split; vm_compute; reflexivity. Qed.

(** A response whose headers are already there: the entry is overwritten
    in place and the other header stays. *)
Example cors_overwrites :
  let w := {| heap := {[ 1%positive := ODict [("headers", VRef 2%positive)];
                         2%positive := ODict [(ACAO, VStr "old");
                                              ("Vary", VStr "Origin")] ]};
              cells := ∅; ncalls := 0 |} in
  let H := user md_hello (fun _ _ h => (Return (VRef 1%positive), h)) in
  let w2 := (fn_call (wrapper_wrapper "*" H) VNone ctx1 w).2 in
  heap w2 !! 1%positive = Some (ODict [("headers", VRef 2%positive)])
  /\ heap w2 !! 2%positive
     = Some (ODict [(ACAO, VStr "*"); ("Vary", VStr "Origin")]).
Proof. split; vm_compute; reflexivity. Qed.

(** A handler that returns [None] has no response to decorate: the
    wrapper raises [AttributeError]. *)
Example cors_none :
  let H := user md_hello (fun _ _ h => (Return VNone, h)) in
  (fn_call (wrapper_wrapper "*" H) VNone ctx1 w_init).1
  = Raise (Exn AttributeError "'NoneType' object has no attribute 'setdefault'").
Proof. vm_compute; reflexivity. Qed.

(** X14.  Stacking: when the handler returns a value that [json.dumps]
    accepts, [cors(json_http_resp(H))] returns a response with the status
    code 200, the serialized value as body and the header for the origin
    ['*'], and it carries the metadata of [H]. *)
Lemma cors_json_http_resp_stack
    (json_dumps : gmap loc obj -> value -> outcome string)
    (H : func) event ctx w V w1 text :
  fn_call H event ctx w = (Return V, w1) ->
  json_dumps (heap w1) V = Return text ->
  exists g r w2 hs,
    cors (Handler (json_http_resp json_dumps H)) = Decorated g
    /\ fn_meta g = fn_meta H
    /\ fn_call g event ctx w = (Return r, w2)
    /\ getitem (heap w2) r "statusCode" = Return (VInt 200)
    /\ getitem (heap w2) r "body" = Return (VStr text)
    /\ getitem (heap w2) r "headers" = Return hs
    /\ getitem (heap w2) hs ACAO = Return (VStr "*").
Proof.
  intros HH Hd.
  pose proof (json_http_resp_ok json_dumps H event ctx w V w1 text HH Hd)
    as Hok.
  set (r := fresh (dom (heap w1))) in *.
  set (wr := set_heap (<[r := ODict [("statusCode", VInt 200);
                                      ("body", VStr text)]]> (heap w1)) w1)
    in *.
  assert (heap wr !! r = Some (ODict [("statusCode", VInt 200);
                                      ("body", VStr text)])) as Hr
      by apply lookup_insert_eq.
  assert (is_response (heap wr) (VRef r) = true) as Hresp.
  { unfold is_response. by rewrite (as_dict_ref _ _ _ Hr). }
  destruct (wrapper_wrapper_response (json_http_resp json_dumps H) "*"
              event ctx w (VRef r) wr Hok Hresp)
    as (w2 & hs & Hcall & Hhs & _ & Horigin & _ & _ & Hother & _).
  exists (wrapper_wrapper "*" (json_http_resp json_dumps H)), (VRef r), w2, hs.
  split; [reflexivity |].
  split; [unfold wrapper_wrapper, json_http_resp; by rewrite !wraps_meta |].
  split; [exact Hcall |].
  split; [rewrite Hother by done; by rewrite (getitem_dict _ _ _ _ Hr) |].
  split; [rewrite Hother by done; by rewrite (getitem_dict _ _ _ _ Hr) |].
  split; [exact Hhs | exact Horigin].
Qed.

(** * Further properties *)

(** ** json_http_resp: what it returns and what it lets through *)

Section JsonHttpRespOutcomes.

Variable json_dumps : gmap loc obj -> value -> outcome string.

(** The [except] branch always ends in an exception. *)
Lemma json_http_resp_except_branch (H : func) event ctx w V w1 e :
  fn_call H event ctx w = (Return V, w1) ->
  json_dumps (heap w1) V = Raise e ->
  is_Exception (exn_cls e) = true ->
  exists ex, fn_call (json_http_resp json_dumps H) event ctx w = (Raise ex, w1).
Proof.
  intros HH Hd He. eexists. unfold json_http_resp. rewrite wraps_call. simpl.
  unfold bind at 1. rewrite HH.
  unfold bind at 1, try_except, bind at 1, json_dumps_call. rewrite Hd.
  unfold except_Exception. rewrite He. reflexivity.
Qed.

(** X1.  Whenever the wrapper of [json_http_resp] returns a value, the
    handler was called on the same event, context and world and returned
    a value that [json.dumps] accepted, and the value returned is a new
    dictionary that is exactly [{'statusCode': 200, 'body': text}]; the
    objects the handler left are untouched.  In particular the wrapper
    never returns a 500 response. *)
Theorem json_http_resp_returns_only_200 (H : func) event ctx w r w' :
  fn_call (json_http_resp json_dumps H) event ctx w = (Return r, w') ->
  exists V w1 text,
    fn_call H event ctx w = (Return V, w1)
    /\ json_dumps (heap w1) V = Return text
    /\ r = VRef (fresh (dom (heap w1)))
    /\ heap w1 !! fresh (dom (heap w1)) = None
    /\ w' = set_heap (<[fresh (dom (heap w1)) :=
                          ODict [("statusCode", VInt 200); ("body", VStr text)]]>
                        (heap w1)) w1.
Proof.
  intros Hcall.
  destruct (fn_call H event ctx w) as [[V|e] w1] eqn:HH.
  - destruct (json_dumps (heap w1) V) as [text|e] eqn:Hd.
    + rewrite (json_http_resp_ok json_dumps H event ctx w V w1 text HH Hd)
        in Hcall.
      injection Hcall as <- <-. exists V, w1, text.
      split; [done |]. split; [done |]. split; [done |].
      split; [apply fresh_lookup | done].
    + destruct (is_Exception (exn_cls e)) eqn:He.
      * destruct (json_http_resp_except_branch H event ctx w V w1 e HH Hd He)
          as [ex Hex].
        rewrite Hex in Hcall. discriminate.
      * rewrite (json_http_resp_dumps_interrupted json_dumps H event ctx w
                   V w1 e HH Hd He) in Hcall. discriminate.
  - rewrite (json_http_resp_handler_raises json_dumps H event ctx w e w1 HH)
      in Hcall. discriminate.
Qed.

(** X2.  The wrapper of [json_http_resp] intercepts nothing but the
    [Exception]s of [json.dumps]: an exception raised by the handler, and
    an exception of [json.dumps] outside [Exception], reach the caller as
    they are, in the world the handler left. *)
Theorem json_http_resp_passes_errors_through (H : func) event ctx w out w1 ex :
  fn_call H event ctx w = (out, w1) ->
  match out with
  | Raise e => ex = e
  | Return V =>
      json_dumps (heap w1) V = Raise ex /\ is_Exception (exn_cls ex) = false
  end ->
  fn_call (json_http_resp json_dumps H) event ctx w = (Raise ex, w1).
Proof.
  intros HH Hout. destruct out as [V|e].
  - destruct Hout as [Hd He].
    by apply (json_http_resp_dumps_interrupted json_dumps H event ctx w V w1).
  - subst ex. by apply json_http_resp_handler_raises.
Qed.

End JsonHttpRespOutcomes.

Lemma json_http_resp_returns_only_200_witness :
  exists V w1 text,
    fn_call hello VNone ctx1 w_init = (Return V, w1)
    /\ json_dumps_sample (heap w1) V = Return text
    /\ heap w1 !! 2%positive = None.
Proof.
  destruct (json_http_resp_returns_only_200 json_dumps_sample hello VNone ctx1
              w_init (VRef 2%positive)
              (fn_call (json_http_resp json_dumps_sample hello) VNone ctx1
                       w_init).2)
    as (V & w1 & text & HH & Hd & _ & _ & _).
  - vm_compute; reflexivity.
  - exists V, w1, text. split; [exact HH |]. split; [exact Hd |].
    vm_compute in HH. injection HH as <- <-. vm_compute; reflexivity.
Defined.

(** The handler that raises [ValueError('boom')]. *)
Lemma json_http_resp_passes_errors_through_witness :
  (fn_call (json_http_resp json_dumps_sample failing) VNone ctx1 w_init).1
  = Raise (Exn ValueError "boom").
Proof.
  rewrite (json_http_resp_passes_errors_through json_dumps_sample failing
             VNone ctx1 w_init (Raise (Exn ValueError "boom"))
             (fn_call failing VNone ctx1 w_init).2 (Exn ValueError "boom")).
  - reflexivity.
  - vm_compute; reflexivity.
  - reflexivity.
Defined.

(** ** dump_json_body: the wrapper it defines *)

(** X3.  The wrapper defined in [dump_json_body] never changes the
    response of the handler.  A response dictionary without a [body] key
    is returned as it is, in the world the handler left.  A response
    dictionary with a [body] key is dropped for a new dictionary
    [{'statusCode': 500, 'body': <message of the TypeError>}], and the
    response keeps the body it had: nothing is ever serialized. *)
Theorem dump_json_body_wrapper_leaves_response (H : func) event ctx w l d w1 :
  fn_call H event ctx w = (Return (VRef l), w1) ->
  heap w1 !! l = Some (ODict d) ->
  exists r w',
    fn_call (dump_json_body_wrapper H) event ctx w = (Return r, w')
    /\ heap w' !! l = Some (ODict d)
    /\ cells w' = cells w1 /\ ncalls w' = ncalls w1
    /\ match assoc_get "body" d with
       | None => r = VRef l /\ w' = w1
       | Some _ =>
           r <> VRef l
           /\ getitem (heap w') r "statusCode" = Return (VInt 500)
           /\ getitem (heap w') r "body"
              = Return (VStr "'function' object is not subscriptable")
       end.
Proof.
  intros HH Hl. destruct (assoc_get "body" d) as [b|] eqn:Hb.
  - pose proof (fresh_lookup (heap w1)) as Hfresh.
    do 2 eexists.
    split; [exact (dump_json_body_wrapper_always_500 H event ctx w l d b w1
                     HH Hl Hb) |].
    simpl. split; [rewrite lookup_insert_ne; [done | congruence] |].
    split; [done |]. split; [done |].
    split; [congruence |].
    split; (erewrite getitem_dict; [|apply lookup_insert_eq]); reflexivity.
  - exists (VRef l), w1. split.
    + unfold dump_json_body_wrapper. rewrite wraps_call. simpl.
      unfold bind at 1. rewrite HH.
      unfold bind at 1. unfold py_contains. rewrite Hl, Hb. reflexivity.
    + by repeat split.
Qed.

(** The handler of the docstring, whose response has a [body]. *)
Lemma dump_json_body_wrapper_leaves_response_witness :
  exists r w',
    fn_call (dump_json_body_wrapper hello_status_body) VNone ctx1 w_init
    = (Return r, w')
    /\ heap w' !! 2%positive
       = Some (ODict [("statusCode", VInt 200); ("body", VRef 1%positive)])
    /\ getitem (heap w') r "statusCode" = Return (VInt 500).
Proof.
  destruct (dump_json_body_wrapper_leaves_response hello_status_body VNone
              ctx1 w_init 2%positive
              [("statusCode", VInt 200); ("body", VRef 1%positive)]
              (fn_call hello_status_body VNone ctx1 w_init).2)
    as (r & w' & Hcall & Hl & _ & _ & Hcase).
  - vm_compute; reflexivity.
  - vm_compute; reflexivity.
  - exists r, w'. split; [exact Hcall |]. split; [exact Hl |].
    simpl in Hcase. by destruct Hcase as (_ & Hstatus & _).
Defined.

(** ** load_json_body: events, stacking and what it leaves alone *)

Section LoadJsonBodyMore.

Variable json_loads : string -> outcome json.

(** The wrapper on an event dictionary whose body parses: the wrapped
    handler runs on the event with its body replaced. *)
Lemma load_json_body_run_valid (l : loc) d S j ctx w :
  heap w !! l = Some (ODict d) ->
  assoc_get "body" d = Some (VStr S) ->
  json_loads S = Return j ->
  exists v w1,
    alloc_json j w = (Return v, w1)
    /\ heap w ⊆ heap w1
    /\ cells w1 = cells w /\ ncalls w1 = ncalls w
    /\ forall G : func,
         fn_call (load_json_body json_loads G) (VRef l) ctx w
         = fn_call G (VRef l) ctx
             (set_heap (<[l := ODict (assoc_set "body" v d)]> (heap w1)) w1).
Proof.
  intros Hl Hb HS.
  destruct (alloc_json_allocates j w) as (v & w1 & Ha & Hsub & Hw1 & _).
  exists v, w1. split; [done |]. split; [done |].
  destruct (set_heap_same _ _ Hw1) as [Hc Hn]. split; [done |]. split; [done |].
  assert (heap w1 !! l = Some (ODict d)) as Hl1 by (by eapply lookup_weaken).
  intros G. unfold load_json_body. rewrite wraps_call. simpl.
  unfold bind at 1, py_get. rewrite (as_dict_ref _ _ _ Hl), Hb. simpl.
  unfold bind at 1, try_except, bind at 1, py_getitem, getitem.
  rewrite (as_dict_ref _ _ _ Hl), Hb.
  unfold bind at 1, json_loads_call. rewrite HS, Ha.
  unfold bind at 1, py_setitem. rewrite (as_dict_ref _ _ _ Hl1).
  reflexivity.
Qed.

(** The wrapper on an event dictionary whose body is absent or is not a
    string: the wrapped handler runs in the same world. *)
Lemma load_json_body_run_skip (G : func) (l : loc) d ctx w :
  heap w !! l = Some (ODict d) ->
  is_str (default VNone (assoc_get "body" d)) = false ->
  fn_call (load_json_body json_loads G) (VRef l) ctx w = fn_call G (VRef l) ctx w.
Proof.
  intros Hl Hstr. unfold load_json_body. rewrite wraps_call. simpl.
  unfold bind at 1, py_get. rewrite (as_dict_ref _ _ _ Hl). simpl.
  by rewrite Hstr.
Qed.

(** The wrapper on an event dictionary whose body does not parse: the
    result does not depend on the wrapped handler. *)
Lemma load_json_body_run_bad (G : func) (l : loc) d S e ctx w :
  heap w !! l = Some (ODict d) ->
  assoc_get "body" d = Some (VStr S) ->
  json_loads S = Raise e ->
  fn_call (load_json_body json_loads G) (VRef l) ctx w
  = (Return (VRef (fresh (dom (heap w)))),
     set_heap (<[fresh (dom (heap w)) :=
                   ODict [("statusCode", VInt 400);
                          ("body", VStr "BAD REQUEST")]]> (heap w)) w).
Proof.
  intros Hl Hb HS. unfold load_json_body. rewrite wraps_call. simpl.
  unfold bind at 1, py_get. rewrite (as_dict_ref _ _ _ Hl), Hb. simpl.
  unfold bind at 1, try_except, bind at 1, py_getitem, getitem.
  rewrite (as_dict_ref _ _ _ Hl), Hb.
  unfold bind at 1, json_loads_call. rewrite HS. reflexivity.
Qed.

(** Only the document that is a JSON string is built as a [str]. *)
Lemma alloc_json_str (j : json) w v w1 :
  alloc_json j w = (Return v, w1) -> is_str v = true -> exists s, j = JStr s.
Proof.
  destruct j as [| b | z | bits | s | js | kvs]; simpl;
    try (intros [= <- <-]; done).
  - intros _ _. by exists s.
  - unfold bind at 1. destruct (mapM alloc_json js w) as [[vs|e] w2]; [|done].
    intros [= <- <-]. done.
  - unfold bind at 1.
    destruct (mapM _ kvs w) as [[d|e] w2]; [|done].
    intros [= <- <-]. done.
Qed.

(** X4.  An event that is not a dictionary has no [get]: the wrapper of
    [load_json_body] raises [AttributeError], the world is unchanged and
    the handler is not called. *)
Theorem load_json_body_event_not_a_dict (H : func) event ctx w :
  as_dict (heap w) event = None ->
  exists msg,
    fn_call (load_json_body json_loads H) event ctx w
    = (Raise (Exn AttributeError msg), w).
Proof.
  intros Hev. eexists. unfold load_json_body. rewrite wraps_call. simpl.
  unfold bind at 1, py_get. rewrite Hev. reflexivity.
Qed.

(** X5.  Decorating twice with [load_json_body] is the same as
    decorating once, on every event dictionary whose body, when it is a
    string that parses, is not the JSON text of a string: the inner
    wrapper finds a body that is no string any more and delegates. *)
Theorem load_json_body_twice (H : func) (l : loc) d ctx w :
  heap w !! l = Some (ODict d) ->
  (forall S s, assoc_get "body" d = Some (VStr S) ->
               json_loads S <> Return (JStr s)) ->
  fn_call (load_json_body json_loads (load_json_body json_loads H))
          (VRef l) ctx w
  = fn_call (load_json_body json_loads H) (VRef l) ctx w.
Proof.
  intros Hl Hnostr.
  destruct (is_str (default VNone (assoc_get "body" d))) eqn:Hstr.
  - destruct (assoc_get "body" d) as [[| | | |S|]|] eqn:Hb; try done.
    destruct (json_loads S) as [j|e] eqn:HS.
    + destruct (load_json_body_run_valid l d S j ctx w Hl Hb HS)
        as (v & w1 & Ha & _ & _ & _ & Hrun).
      rewrite !Hrun. apply (load_json_body_run_skip H l (assoc_set "body" v d)).
      * apply lookup_insert_eq.
      * rewrite assoc_get_set_eq. simpl.
        destruct (is_str v) eqn:Hv; [|done].
        destruct (alloc_json_str j w v w1 Ha Hv) as [s ->].
        by destruct (Hnostr S s eq_refl).
    + by rewrite !(load_json_body_run_bad _ l d S e ctx w Hl Hb HS).
  - by apply (load_json_body_run_skip _ l d).
Qed.

(** X6.  When the body parses, the world the handler runs in differs
    from the caller's only by the new objects of the document and by the
    [body] entry of the event: the other entries of the event, every
    other object that existed, the closure cells and the call counter
    are the same. *)
Theorem load_json_body_changes_body_only (H : func) (l : loc) d S j ctx w :
  heap w !! l = Some (ODict d) ->
  assoc_get "body" d = Some (VStr S) ->
  json_loads S = Return j ->
  exists w',
    fn_call (load_json_body json_loads H) (VRef l) ctx w
    = fn_call H (VRef l) ctx w'
    /\ (forall k, k <> "body" ->
          getitem (heap w') (VRef l) k = getitem (heap w) (VRef l) k)
    /\ (forall l' o, l' <> l -> heap w !! l' = Some o -> heap w' !! l' = Some o)
    /\ cells w' = cells w
    /\ ncalls w' = ncalls w.
Proof.
  intros Hl Hb HS.
  destruct (load_json_body_run_valid l d S j ctx w Hl Hb HS)
    as (v & w1 & _ & Hsub & Hc & Hn & Hrun).
  eexists. split; [apply Hrun |]. simpl.
  split; [|split; [|done]].
  - intros k Hk. erewrite getitem_dict; [|apply lookup_insert_eq].
    rewrite (getitem_dict _ _ _ _ Hl). by rewrite assoc_get_set_ne.
  - intros l' o Hne Hl'. rewrite lookup_insert_ne by done.
    by eapply lookup_weaken.
Qed.

End LoadJsonBodyMore.

(** The event [None]. *)
Lemma load_json_body_event_not_a_dict_witness :
  fn_call (load_json_body json_loads_sample hello) VNone ctx1 w_init
  = (Raise (Exn AttributeError "'NoneType' object has no attribute 'get'"),
     w_init).
Proof.
  destruct (load_json_body_event_not_a_dict json_loads_sample hello VNone ctx1
              w_init eq_refl) as [msg Hmsg].
  rewrite Hmsg. vm_compute in Hmsg. injection Hmsg as <-. reflexivity.
Defined.

(** The event [{'body': '{"name": 7}'}], whose document is an object. *)
Lemma load_json_body_twice_witness :
  fn_call (load_json_body json_loads_sample
             (load_json_body json_loads_sample get_body))
          (VRef 1%positive) ctx1 (w_event (VStr doc_name))
  = fn_call (load_json_body json_loads_sample get_body)
            (VRef 1%positive) ctx1 (w_event (VStr doc_name)).
Proof.
  apply (load_json_body_twice json_loads_sample get_body 1%positive
           [("body", VStr doc_name)]).
  - vm_compute; reflexivity.
  - intros S s [= <-]. vm_compute. discriminate.
Defined.

(** The JSON text of a string is decoded once by each layer: with the
    stand-in extended to the text ["null"] in quotes, one layer hands the
    string [null] over and two layers hand [None] over. *)
Example load_json_body_twice_decodes_twice :
  let loads s := if decide (s = quoted "null") then Return (JStr "null")
                 else json_loads_sample s in
  (fn_call (load_json_body loads get_body) (VRef 1%positive) ctx1
           (w_event (VStr (quoted "null")))).1 = Return (VStr "null")
  /\ (fn_call (load_json_body loads (load_json_body loads get_body))
              (VRef 1%positive) ctx1 (w_event (VStr (quoted "null")))).1
     = Return VNone.
Proof. split; vm_compute; reflexivity. Qed.

Lemma load_json_body_changes_body_only_witness :
  exists w',
    fn_call (load_json_body json_loads_sample get_body) (VRef 1%positive) ctx1
            (w_event (VStr doc_name))
    = fn_call get_body (VRef 1%positive) ctx1 w'
    /\ ncalls w' = 0.
Proof.
  destruct (load_json_body_changes_body_only json_loads_sample get_body
              1%positive [("body", VStr doc_name)] doc_name
              (JObj [("name", JInt 7)]) ctx1 (w_event (VStr doc_name)))
    as (w' & Hrun & _ & _ & _ & Hn).
  - vm_compute; reflexivity.
  - reflexivity.
  - vm_compute; reflexivity.
  - exists w'. split; [exact Hrun | exact Hn].
Defined.

(** ** cors: errors and stacking *)

Lemma is_non_dict_as_dict (h : gmap loc obj) v :
  is_non_dict h v = true -> as_dict h v = None.
Proof.
  unfold is_non_dict, as_dict. destruct v as [| | | | |l]; try done.
  by destruct (h !! l) as [[]|].
Qed.

Lemma is_non_dict_alloc (h : gmap loc obj) v o :
  is_non_dict h v = true -> is_non_dict (<[fresh (dom h) := o]> h) v = true.
Proof.
  unfold is_non_dict. destruct v as [| | | | |l]; try done.
  destruct (h !! l) as [o'|] eqn:Hl; [|done].
  rewrite lookup_insert_ne; [by rewrite Hl |].
  intros <-. by rewrite fresh_lookup in Hl.
Qed.

(** X7.  The wrapper of [cors] handles no error.  An exception of the
    handler reaches the caller as it is; a return value that is not a
    dictionary has no [setdefault] and gives an [AttributeError].  In both
    cases the world is the one the handler left: no header was written
    and nothing was allocated. *)
Theorem cors_handles_no_error (H : func) (origin : string) event ctx w out w1 :
  fn_call H event ctx w = (out, w1) ->
  match out with
  | Raise _ => True
  | Return r => as_dict (heap w1) r = None
  end ->
  exists ex,
    fn_call (wrapper_wrapper origin H) event ctx w = (Raise ex, w1)
    /\ match out with
       | Raise e => ex = e
       | Return _ => exn_cls ex = AttributeError
       end.
Proof.
  intros HH Hout. unfold wrapper_wrapper. rewrite wraps_call.
  unfold def_, fn_call at 1. unfold bind at 1. rewrite HH.
  destruct out as [r|e].
  - unfold bind at 1, py_getattr_setdefault. rewrite Hout.
    eexists. split; reflexivity.
  - by exists e.
Qed.

(** X8.  When the response of the handler has a [headers] entry that is
    not a dictionary ([None], a string, a list), the wrapper of [cors]
    raises [TypeError] at the assignment of the header; every object the
    handler left, the response included, is unchanged. *)
Theorem cors_headers_not_a_dict (H : func) (origin : string) event ctx w
    l d hs w1 :
  fn_call H event ctx w = (Return (VRef l), w1) ->
  heap w1 !! l = Some (ODict d) ->
  assoc_get "headers" d = Some hs ->
  is_non_dict (heap w1) hs = true ->
  exists msg w',
    fn_call (wrapper_wrapper origin H) event ctx w
    = (Raise (Exn TypeError msg), w')
    /\ heap w1 ⊆ heap w'
    /\ cells w' = cells w1
    /\ ncalls w' = ncalls w1.
Proof.
  intros HH Hl Hget Hhs.
  pose proof (fresh_lookup (heap w1)) as Hfresh.
  assert (l <> fresh (dom (heap w1))) as Hne by congruence.
  unfold wrapper_wrapper. rewrite wraps_call. unfold def_, fn_call at 1.
  unfold bind at 1. rewrite HH.
  unfold bind at 1, py_getattr_setdefault. rewrite (as_dict_ref _ _ _ Hl).
  unfold bind at 1, new_dict, alloc.
  unfold bind at 1, py_setdefault.
  assert (heap (set_heap (<[fresh (dom (heap w1)) := ODict (assoc_of_list [])]>
                           (heap w1)) w1) !! l = Some (ODict d)) as Hl'
      by (simpl; by rewrite lookup_insert_ne).
  rewrite (as_dict_ref _ _ _ Hl'), Hget.
  unfold bind at 1, py_setitem. simpl heap.
  rewrite (is_non_dict_as_dict _ _ (is_non_dict_alloc _ _ _ Hhs)).
  do 2 eexists. split; [reflexivity |]. simpl.
  split; [by apply insert_subseteq | done].
Qed.

Lemma is_response_intro (h : gmap loc obj) r hs :
  getitem h r "headers" = Return hs ->
  is_Some (as_dict h hs) ->
  is_response h r = true.
Proof.
  unfold getitem, is_response. destruct (as_dict h r) as [[l d]|]; [|done].
  destruct (assoc_get "headers" d) as [v|]; [|done].
  intros [= ->] Hhs. by apply bool_decide_eq_true.
Qed.

(** X9.  Two layers of [cors]: in [cors(O2)(cors(O1)(H))] the outer
    origin wins.  The response returned is still the object of the
    handler, its headers are the dictionary the inner layer found or
    created, and the entry is [O2]. *)
Theorem cors_outermost_origin_wins (H : func) (O1 O2 : string)
    event ctx w r w1 :
  fn_call H event ctx w = (Return r, w1) ->
  is_response (heap w1) r = true ->
  exists w2 w3 hs,
    fn_call (wrapper_wrapper O1 H) event ctx w = (Return r, w2)
    /\ getitem (heap w2) r "headers" = Return hs
    /\ getitem (heap w2) hs ACAO = Return (VStr O1)
    /\ fn_call (wrapper_wrapper O2 (wrapper_wrapper O1 H)) event ctx w
       = (Return r, w3)
    /\ getitem (heap w3) r "headers" = Return hs
    /\ getitem (heap w3) hs ACAO = Return (VStr O2).
Proof.
  intros HH Hresp.
  destruct (wrapper_wrapper_response H O1 event ctx w r w1 HH Hresp)
    as (w2 & hs & Hcall & Hhs & Hdict & Horigin & _).
  pose proof (is_response_intro _ _ _ Hhs Hdict) as Hresp2.
  destruct (wrapper_wrapper_response (wrapper_wrapper O1 H) O2 event ctx w r w2
              Hcall Hresp2)
    as (w3 & hs' & Hcall' & Hhs' & _ & Horigin' & Hold & _).
  destruct (Hold hs Hhs) as [-> _].
  exists w2, w3, hs. by repeat split.
Qed.

Lemma cors_handles_no_error_witness :
  exists ex,
    fn_call (wrapper_wrapper "*" nothing) VNone ctx1 w_init
    = (Raise ex, (fn_call nothing VNone ctx1 w_init).2)
    /\ exn_cls ex = AttributeError.
Proof.
  apply (cors_handles_no_error nothing "*" VNone ctx1 w_init (Return VNone)).
  - vm_compute; reflexivity.
  - reflexivity.
Defined.

(** The response [{'headers': None}]. *)
Lemma cors_headers_not_a_dict_witness :
  exists msg w',
    fn_call (wrapper_wrapper "*" odd_headers) VNone ctx1 w_init
    = (Raise (Exn TypeError msg), w')
    /\ heap w' !! 1%positive = Some (ODict [("headers", VNone)]).
Proof.
  destruct (cors_headers_not_a_dict odd_headers "*" VNone ctx1 w_init
              1%positive [("headers", VNone)] VNone
              (fn_call odd_headers VNone ctx1 w_init).2)
    as (msg & w' & Hcall & Hsub & _).
  - vm_compute; reflexivity.
  - vm_compute; reflexivity.
  - reflexivity.
  - reflexivity.
  - exists msg, w'. split; [exact Hcall |].
    eapply lookup_weaken; [|exact Hsub]. vm_compute; reflexivity.
Defined.

Lemma cors_outermost_origin_wins_witness :
  exists w3 hs,
    fn_call (wrapper_wrapper "https://example.com" (wrapper_wrapper "*" hello))
            VNone ctx1 w_init
    = (Return (VRef 1%positive), w3)
    /\ getitem (heap w3) (VRef 1%positive) "headers" = Return hs
    /\ getitem (heap w3) hs ACAO = Return (VStr "https://example.com").
Proof.
  destruct (cors_outermost_origin_wins hello "*" "https://example.com"
              VNone ctx1 w_init (VRef 1%positive)
              (fn_call hello VNone ctx1 w_init).2)
    as (w2 & w3 & hs & _ & _ & _ & Hcall & Hhs & Horigin).
  - vm_compute; reflexivity.
  - vm_compute; reflexivity.
  - by exists w3, hs.
Defined.

(** ** Stacks of decorators *)

Section Stacks.

Variable json_loads : string -> outcome json.
Variable json_dumps : gmap loc obj -> value -> outcome string.

(** What a value returned by the wrapper of [json_http_resp] comes from. *)
Lemma json_http_resp_return_inv (G : func) event ctx w r w' :
  fn_call (json_http_resp json_dumps G) event ctx w = (Return r, w') ->
  exists V w1 text,
    fn_call G event ctx w = (Return V, w1)
    /\ json_dumps (heap w1) V = Return text.
Proof.
  intros Hcall.
  destruct (fn_call G event ctx w) as [[V|e] w1] eqn:HG.
  - destruct (json_dumps (heap w1) V) as [text|e] eqn:Hd.
    + by exists V, w1, text.
    + destruct (is_Exception (exn_cls e)) eqn:He.
      * destruct (json_http_resp_except_branch json_dumps G event ctx w V w1 e
                    HG Hd He) as [ex Hex].
        rewrite Hex in Hcall. discriminate.
      * rewrite (json_http_resp_dumps_interrupted json_dumps G event ctx w
                   V w1 e HG Hd He) in Hcall. discriminate.
  - rewrite (json_http_resp_handler_raises json_dumps G event ctx w e w1 HG)
      in Hcall. discriminate.
Qed.

(** X10.  The order of the decorators matters: with [cors] under
    [json_http_resp], whenever the stack returns, the response returned
    has no [headers] entry.  The header sits on the response of the
    handler, a different object, which went into the serialized body. *)
Theorem json_http_resp_over_cors_drops_header (H : func) (origin : string)
    event ctx w r0 w1 r w' :
  fn_call H event ctx w = (Return r0, w1) ->
  is_response (heap w1) r0 = true ->
  fn_call (json_http_resp json_dumps (wrapper_wrapper origin H)) event ctx w
  = (Return r, w') ->
  getitem (heap w') r "headers" = Raise (Exn KeyError "'headers'")
  /\ getitem (heap w') r "statusCode" = Return (VInt 200)
  /\ r <> r0
  /\ exists hs, getitem (heap w') r0 "headers" = Return hs
                /\ getitem (heap w') hs ACAO = Return (VStr origin).
Proof.
  intros HH Hresp Hcall.
  destruct (wrapper_wrapper_response H origin event ctx w r0 w1 HH Hresp)
    as (w2 & hs & Hcors & Hhs & [[lh dh] Hdict] & Horigin & _).
  destruct (json_http_resp_return_inv _ event ctx w r w' Hcall)
    as (V & w2' & text & HG & Hd).
  rewrite Hcors in HG. injection HG as <- <-.
  rewrite (json_http_resp_ok json_dumps _ event ctx w r0 w2 text Hcors Hd)
    in Hcall.
  injection Hcall as <- <-. simpl.
  pose proof (fresh_lookup (heap w2)) as Hfresh.
  apply as_dict_Some in Hdict as [-> Hlh].
  destruct (is_response_inv _ _ (is_response_intro _ _ _ Hhs
                                   (ex_intro _ (lh, dh) (as_dict_ref _ _ _ Hlh))))
    as (l0 & d0 & -> & Hl0 & _).
  split; [|split; [|split]].
  - erewrite getitem_dict; [|apply lookup_insert_eq]. reflexivity.
  - erewrite getitem_dict; [|apply lookup_insert_eq]. reflexivity.
  - congruence.
  - exists (VRef lh). split.
    + rewrite <- Hhs. unfold getitem.
      rewrite (as_dict_ref _ _ _ Hl0).
      erewrite as_dict_ref; [reflexivity |].
      rewrite lookup_insert_ne; [done | congruence].
    + rewrite <- Horigin. unfold getitem.
      rewrite (as_dict_ref _ _ _ Hlh).
      erewrite as_dict_ref; [reflexivity |].
      rewrite lookup_insert_ne; [done | congruence].
Qed.

(** X11.  Every stack of the decorators that return a wrapper carries
    the module, name, qualified name and docstring of the innermost
    handler. *)
Theorem stack_keeps_metadata (ds : list (func -> func)) (H : func) :
  Forall (module_decorator json_loads json_dumps) ds ->
  fn_meta (stack ds H) = fn_meta H.
Proof.
  induction 1 as [|d ds Hd _ IH]; [done |].
  unfold stack in *. simpl. rewrite <- IH.
  destruct Hd; apply wraps_meta.
Qed.

(** X12.  The stack of the module docstring, [cors] over [json_http_resp]
    over [load_json_body], on an event whose body does not parse: the
    400 response of [load_json_body] is serialized like any return value,
    so the caller gets status 200 with the JSON text of the 400 response
    as body, and the CORS header; the handler is not called. *)
Theorem quick_example_bad_request_is_200 (H : func) (l : loc) d S e ctx w text :
  heap w !! l = Some (ODict d) ->
  assoc_get "body" d = Some (VStr S) ->
  json_loads S = Raise e ->
  json_dumps (<[fresh (dom (heap w)) :=
                  ODict [("statusCode", VInt 400);
                         ("body", VStr "BAD REQUEST")]]> (heap w))
             (VRef (fresh (dom (heap w)))) = Return text ->
  exists g r w' hs,
    cors (Handler (json_http_resp json_dumps (load_json_body json_loads H)))
    = Decorated g
    /\ fn_call g (VRef l) ctx w = (Return r, w')
    /\ getitem (heap w') r "statusCode" = Return (VInt 200)
    /\ getitem (heap w') r "body" = Return (VStr text)
    /\ getitem (heap w') r "headers" = Return hs
    /\ getitem (heap w') hs ACAO = Return (VStr "*")
    /\ ncalls w' = ncalls w.
Proof.
  intros Hl Hb HS Hd.
  pose proof (load_json_body_run_bad json_loads H l d S e ctx w Hl Hb HS)
    as Hbad.
  pose proof (json_http_resp_ok json_dumps _ (VRef l) ctx w _ _ text Hbad Hd)
    as Hok.
  match type of Hok with _ = (Return (VRef ?x), ?y) =>
    set (r := x) in *; set (wr := y) in * end.
  assert (heap wr !! r = Some (ODict [("statusCode", VInt 200);
                                      ("body", VStr text)])) as Hr
      by apply lookup_insert_eq.
  assert (is_response (heap wr) (VRef r) = true) as Hresp.
  { unfold is_response. by rewrite (as_dict_ref _ _ _ Hr). }
  destruct (wrapper_wrapper_response _ "*" (VRef l) ctx w (VRef r) wr Hok Hresp)
    as (w2 & hs & Hcall & Hhs & _ & Horigin & _ & _ & Hother & _ & Hn).
  eexists _, (VRef r), w2, hs.
  split; [reflexivity |]. split; [exact Hcall |].
  split; [rewrite Hother by done; by rewrite (getitem_dict _ _ _ _ Hr) |].
  split; [rewrite Hother by done; by rewrite (getitem_dict _ _ _ _ Hr) |].
  split; [exact Hhs |]. split; [exact Horigin |]. by rewrite Hn.
Qed.

End Stacks.

Lemma json_http_resp_over_cors_drops_header_witness :
  exists r w',
    fn_call (json_http_resp json_dumps_sample (wrapper_wrapper "*" hello))
            VNone ctx1 w_init = (Return r, w')
    /\ getitem (heap w') r "headers" = Raise (Exn KeyError "'headers'")
    /\ r <> VRef 1%positive.
Proof.
  eexists _, _. split; [vm_compute; reflexivity |].
  destruct (json_http_resp_over_cors_drops_header json_dumps_sample hello "*"
              VNone ctx1 w_init (VRef 1%positive)
              (fn_call hello VNone ctx1 w_init).2
              (VRef 3%positive)
              (fn_call (json_http_resp json_dumps_sample
                          (wrapper_wrapper "*" hello)) VNone ctx1 w_init).2)
    as (Hnone & _ & Hne & _).
  - vm_compute; reflexivity.
  - vm_compute; reflexivity.
  - vm_compute; reflexivity.
  - split; [exact Hnone | exact Hne].
Defined.

(** The stack of the module docstring. *)
Lemma stack_keeps_metadata_witness :
  fn_meta (stack [wrapper_wrapper "*"; json_http_resp json_dumps_sample;
                  load_json_body json_loads_sample] hello)
  = md_hello.
Proof.
  apply (stack_keeps_metadata json_loads_sample json_dumps_sample).
  repeat constructor.
Defined.

Lemma quick_example_bad_request_is_200_witness :
  exists g r w',
    cors (Handler (json_http_resp json_dumps_sample_400
                     (load_json_body json_loads_sample hello)))
    = Decorated g
    /\ fn_call g (VRef 1%positive) ctx1 (w_event (VStr "{bad"))
       = (Return r, w')
    /\ getitem (heap w') r "statusCode" = Return (VInt 200)
    /\ getitem (heap w') r "body" = Return (VStr text_400)
    /\ ncalls w' = 0.
Proof.
  destruct (quick_example_bad_request_is_200 json_loads_sample
              json_dumps_sample_400 hello 1%positive [("body", VStr "{bad")]
              "{bad"
              (Exn (OtherException "JSONDecodeError")
                 "Expecting value: line 1 column 1 (char 0)")
              ctx1 (w_event (VStr "{bad")) text_400)
    as (g & r & w' & hs & Hg & Hcall & Hstatus & Hbody & _ & _ & Hn).
  - vm_compute; reflexivity.
  - reflexivity.
  - vm_compute; reflexivity.
  - vm_compute; reflexivity.
  - by exists g, r, w'.
Defined.

Lemma cors_json_http_resp_stack_witness :
  exists g r w2 hs,
    cors (Handler (json_http_resp json_dumps_sample hello)) = Decorated g
    /\ fn_call g VNone ctx1 w_init = (Return r, w2)
    /\ getitem (heap w2) r "statusCode" = Return (VInt 200)
    /\ getitem (heap w2) r "headers" = Return hs
    /\ getitem (heap w2) hs ACAO = Return (VStr "*").
Proof.
  destruct (cors_json_http_resp_stack json_dumps_sample hello VNone ctx1 w_init
              (VRef 1%positive) (fn_call hello VNone ctx1 w_init).2
              ("{" +:+ quoted "hello" +:+ ": " +:+ quoted "world" +:+ "}"))
    as (g & r & w2 & hs & Hg & _ & Hcall & Hstatus & _ & Hhs & Horigin).
  - vm_compute; reflexivity.
  - vm_compute; reflexivity.
  - by exists g, r, w2, hs.
Defined.

(** ** no_retry_on_failure: one set per decoration *)

Section NoRetryCells.

Variable md : metadata.
Variable f : value -> context -> gmap loc obj -> outcome value * gmap loc obj.



End NoRetryCells.


(** ** How often a wrapper enters the handler *)

Lemma enters_ret {A} (a : A) : enters 0 (ret a).
Proof. intros w. simpl. lia. Qed.

Lemma enters_raise {A} (e : exn) : enters 0 (@raise A e).
Proof. intros w. simpl. lia. Qed.

Lemma enters_bind {A B} n (m : M A) (k : A -> M B) :
  enters n m -> (forall a, enters 0 (k a)) -> enters n (bind m k).
Proof.
  intros Hm Hk w. unfold bind. specialize (Hm w).
  destruct (m w) as [[a|e] w1]; simpl in *; [|done].
  rewrite (Hk a w1). lia.
Qed.

Lemma enters_try_except {A} (m : M A) filter (h : exn -> M A) :
  enters 0 m -> (forall e, enters 0 (h e)) -> enters 0 (try_except m filter h).
Proof.
  intros Hm Hh w. unfold try_except. specialize (Hm w).
  destruct (m w) as [[a|e] w1]; simpl in *; [done |].
  destruct (filter e); [|done]. rewrite (Hh e w1). lia.
Qed.

Lemma enters_bind_at_most_once {A B} (m : M A) (k : A -> M B) :
  enters 0 m -> (forall a, enters_at_most_once (k a)) ->
  enters_at_most_once (bind m k).
Proof.
  intros Hm Hk w. unfold bind. specialize (Hm w).
  destruct (m w) as [[a|e] w1]; simpl in *.
  - destruct (Hk a w1) as [-> | ->]; [left | right]; lia.
  - left. lia.
Qed.

Lemma enters_alloc o : enters 0 (alloc o).
Proof. intros w. simpl. lia. Qed.

Lemma enters_py_get o k : enters 0 (py_get o k).
Proof.
  intros w. unfold py_get. destruct (as_dict (heap w) o) as [[]|]; simpl; lia.
Qed.

Lemma enters_py_getitem o k : enters 0 (py_getitem o k).
Proof. intros w. simpl. lia. Qed.

Lemma enters_py_setitem o k v : enters 0 (py_setitem o k v).
Proof.
  intros w. unfold py_setitem.
  destruct (as_dict (heap w) o) as [[]|]; simpl; lia.
Qed.

Lemma enters_py_setdefault o k v : enters 0 (py_setdefault o k v).
Proof.
  intros w. unfold py_setdefault.
  destruct (as_dict (heap w) o) as [[l d]|]; simpl; [|lia].
  destruct (assoc_get k d); simpl; lia.
Qed.

Lemma enters_py_getattr_setdefault o : enters 0 (py_getattr_setdefault o).
Proof.
  intros w. unfold py_getattr_setdefault.
  destruct (as_dict (heap w) o) as [[]|]; simpl; lia.
Qed.

Lemma enters_load_local {A} name (x : option A) : enters 0 (load_local name x).
Proof. destruct x; [apply enters_ret | apply enters_raise]. Qed.

Lemma enters_alloc_json j : enters 0 (alloc_json j).
Proof.
  intros w. destruct (alloc_json_allocates j w) as (v & w1 & -> & _ & Hw1 & _).
  destruct (set_heap_same _ _ Hw1) as [_ Hn]. simpl. lia.
Qed.

Lemma enters_user md f event ctx : enters 1 (fn_call (user md f) event ctx).
Proof. intros w. destruct (user_call_world md f event ctx w) as [_ ->]. lia. Qed.

Section Entries.

Variable json_loads : string -> outcome json.
Variable json_dumps : gmap loc obj -> value -> outcome string.
Variable md : metadata.
Variable f : value -> context -> gmap loc obj -> outcome value * gmap loc obj.

Lemma enters_json_loads_call s : enters 0 (json_loads_call json_loads s).
Proof.
  unfold json_loads_call. destruct s; try (intros w; simpl; lia).
  destruct (json_loads s); [apply enters_alloc_json | apply enters_raise].
Qed.

Lemma enters_cors origin event ctx :
  enters 1 (fn_call (wrapper_wrapper origin (user md f)) event ctx).
Proof.
  unfold wrapper_wrapper. rewrite wraps_call. unfold def_, fn_call at 1.
  apply enters_bind; [apply enters_user |]. intros response.
  apply enters_bind; [apply enters_py_getattr_setdefault |]. intros _.
  apply enters_bind; [apply enters_alloc |]. intros empty.
  apply enters_bind; [apply enters_py_setdefault |]. intros headers.
  apply enters_bind; [apply enters_py_setitem |]. intros _.
  apply enters_ret.
Qed.

Lemma enters_json_http_resp event ctx :
  enters 1 (fn_call (json_http_resp json_dumps (user md f)) event ctx).
Proof.
  unfold json_http_resp. rewrite wraps_call. unfold def_, fn_call at 1.
  apply enters_bind; [apply enters_user |]. intros response.
  apply enters_bind.
  - apply enters_try_except.
    + apply enters_bind; [intros w; simpl; lia |]. intros body.
      apply enters_ret.
    + intros exc. apply enters_bind; [apply enters_load_local |]. intros key.
      apply enters_bind; [apply enters_alloc |]. intros r. apply enters_ret.
  - intros [body|r]; [apply enters_alloc | apply enters_ret].
Qed.

Lemma enters_load_json_body event ctx :
  enters_at_most_once
    (fn_call (load_json_body json_loads (user md f)) event ctx).
Proof.
  unfold load_json_body. rewrite wraps_call. unfold def_, fn_call at 1.
  apply enters_bind_at_most_once; [apply enters_py_get |]. intros b.
  apply enters_bind_at_most_once.
  - destruct (is_str b); [|apply enters_ret].
    apply enters_try_except.
    + apply enters_bind; [apply enters_py_getitem |]. intros s.
      apply enters_bind; [apply enters_json_loads_call |]. intros v.
      apply enters_bind; [apply enters_py_setitem |]. intros _.
      apply enters_ret.
    + intros _. apply enters_bind; [apply enters_alloc |]. intros r.
      apply enters_ret.
  - intros [r|] w.
    + left. reflexivity.
    + right. rewrite (enters_user md f event ctx w). lia.
Qed.

Lemma enters_no_retry cell event ctx :
  enters_at_most_once (fn_call (no_retry_wrapper cell (user md f)) event ctx).
Proof.
  intros w. destruct (no_retry_step md f cell event ctx w) as [Hdup Hnew].
  destruct (decide (aws_request_id ctx ∈ seen cell w)) as [Hin|Hnin].
  - left. by rewrite (Hdup Hin).
  - right. by destruct (Hnew Hnin).
Qed.

(** X15.  No wrapper of the module enters the handler twice.  One
    invocation of a decorated user handler, on any event, context and
    world and whether it returns or raises, enters the handler exactly
    once under [cors] and under [json_http_resp], and once or not at all
    under [load_json_body] and under [no_retry_on_failure]. *)
Theorem decorators_enter_handler_at_most_once (d : func -> func) event ctx w :
  module_decorator json_loads json_dumps d ->
  let n := ncalls (fn_call (d (user md f)) event ctx w).2 in
  (n = ncalls w \/ n = S (ncalls w))
  /\ (forall origin, d = wrapper_wrapper origin -> n = S (ncalls w))
  /\ (d = json_http_resp json_dumps -> n = S (ncalls w)).
Proof.
  intros Hd. cbv zeta. split; [|split].
  - destruct Hd.
    + right. rewrite enters_cors. lia.
    + right. rewrite enters_json_http_resp. lia.
    + apply enters_load_json_body.
    + apply enters_no_retry.
  - intros origin ->. rewrite enters_cors. lia.
  - intros ->. rewrite enters_json_http_resp. lia.
Qed.

End Entries.

(** [load_json_body] around [hello] on an event whose body does not
    parse: no entry. *)
Lemma decorators_enter_handler_at_most_once_witness :
  ncalls (fn_call (load_json_body json_loads_sample hello) (VRef 1%positive)
                  ctx1 (w_event (VStr "{bad"))).2 = 0
  /\ ncalls (fn_call (json_http_resp json_dumps_sample hello_set) VNone ctx1
                     w_init).2 = 1.
Proof.
  split; [vm_compute; reflexivity |].
  destruct (decorators_enter_handler_at_most_once json_loads_sample
              json_dumps_sample md_hello (return_new (OSet [VInt 1]))
              (json_http_resp json_dumps_sample) VNone ctx1 w_init
              (dec_json_http_resp _ _)) as (_ & _ & Hone).
  exact (Hone eq_refl).
Defined.
